(** * HomeRunBall-Chat: the stat calculator

    A shallow embedding of [services/stat_calculator.py] (class
    [StatCalculator]) together with the fragments of the Python runtime
    and of the [json] package that the class relies on.

    - Python [str] is modelled by [string], holding the UTF-8 encoding
      of the text.
    - Python [int] is [Z]; Python [float] is an IEEE 754 binary64 value,
      [spec_float] with [prec = 53] and [emax = 1024].
    - Python [dict] with string keys is [gmap string _]: equality of
      [gmap]s is equality of Python dictionaries (order plays no role).
    - A call either returns or raises; [print] appends a line to the
      standard output, which is threaded through as state.
    - [json.loads] is the decoder of CPython, with the two limits of
      the interpreter that a text can reach: the recursion limit, for
      nested objects and arrays, and the digit limit of [int(text)]. *)

From Stdlib Require Import ZArith String Ascii List Bool Lia.
From Stdlib Require Import Floats.SpecFloat.
From stdpp Require Import gmap strings list fin_maps pretty.

Set Warnings "-register-all".
Local Open Scope string_scope.

(** ** Characters that cannot be written inside a literal *)

Definition dq_char : ascii := ascii_of_nat 34.
Definition nl_char : ascii := ascii_of_nat 10.
Definition dq : string := String dq_char EmptyString.
Definition nl : string := String nl_char EmptyString.

(** * Python runtime fragments *)
Module Py.

(** Values that [json.loads] can produce. *)
Inductive value : Type :=
  | VNone
  | VBool (b : bool)
  | VInt (z : Z)
  | VFloat (f : spec_float)
  | VStr (s : string)
  | VList (l : list value)
  | VDict (d : gmap string value).

(** [type(v).__name__] *)
Definition type_name (v : value) : string :=
  match v with
  | VNone => "NoneType"
  | VBool _ => "bool"
  | VInt _ => "int"
  | VFloat _ => "float"
  | VStr _ => "str"
  | VList _ => "list"
  | VDict _ => "dict"
  end.

(** Exception classes.  [OtherException] stands for any class that is
    neither one of the named ones nor a subclass of [JSONDecodeError]
    or [KeyError]. *)
Inductive exc_class : Type :=
  | JSONDecodeError
  | KeyError
  | AttributeError
  | ValueError
  | IndexError
  | RecursionError
  | OtherException (name : string).

Definition class_name (c : exc_class) : string :=
  match c with
  | JSONDecodeError => "JSONDecodeError"
  | KeyError => "KeyError"
  | AttributeError => "AttributeError"
  | ValueError => "ValueError"
  | IndexError => "IndexError"
  | RecursionError => "RecursionError"
  | OtherException name => name
  end.

(** An exception instance: its class and [str(e)]. *)
Record exn : Type := Exn { exn_class : exc_class; exn_str : string }.

(** [isinstance(e, (JSONDecodeError, KeyError))].  [JSONDecodeError]
    derives from [ValueError], not the other way round. *)
Definition is_decode_or_key_error (e : exn) : bool :=
  match exn_class e with
  | JSONDecodeError | KeyError => true
  | _ => false
  end.

(** The outcome of a call. *)
Inductive outcome (A : Type) : Type :=
  | Returned (a : A)
  | Raised (e : exn).
Arguments Returned {A} a.
Arguments Raised {A} e.

(** Computations that may print and may raise: the lines printed so
    far go in, the outcome and the lines printed come out. *)
Definition M (A : Type) : Type := list string -> outcome A * list string.

Definition ret {A} (a : A) : M A := fun out => (Returned a, out).
Definition raise {A} (e : exn) : M A := fun out => (Raised e, out).
Definition bind {A B} (m : M A) (k : A -> M B) : M B :=
  fun out =>
    match m out with
    | (Returned a, out') => k a out'
    | (Raised e, out') => (Raised e, out')
    end.
Definition lift {A} (o : outcome A) : M A := fun out => (o, out).
Definition print (line : string) : M unit :=
  fun out => (Returned tt, (out ++ [line])%list).

#[global] Instance M_ret : MRet M := @ret.
#[global] Instance M_bind : MBind M := fun A B k m => bind m k.

(** [try: body except (json.JSONDecodeError, KeyError) as e: handler] *)
Definition try_except_decode_or_key {A} (body : M A) (handler : exn -> M A) : M A :=
  fun out =>
    match body out with
    | (Returned a, out') => (Returned a, out')
    | (Raised e, out') =>
        if is_decode_or_key_error e then handler e out' else (Raised e, out')
    end.

(** [v != 0].  [False] and both float zeros compare equal to [0];
    [None], strings, lists and dictionaries never do, and neither does
    a NaN. *)
Definition ne_zero (v : value) : bool :=
  match v with
  | VBool b => b
  | VInt z => negb (z =? 0)%Z
  | VFloat (S754_zero _) => false
  | _ => true
  end.

(** [obj.get(key, default)]: a method of [dict] only. *)
Definition get (obj : value) (key : string) (dflt : value) : outcome value :=
  match obj with
  | VDict d => Returned (default dflt (d !! key))
  | _ => Raised (Exn AttributeError
           ("'" ++ type_name obj ++ "' object has no attribute 'get'"))
  end.

(** [{k: v for k, v in obj.items() if v != 0}]: [items] is a method of
    [dict] only; the comprehension keeps the pairs that pass the test. *)
Definition nonzero_items (obj : value) : outcome (gmap string value) :=
  match obj with
  | VDict d => Returned (filter (fun kv => ne_zero kv.2 = true) d)
  | _ => Raised (Exn AttributeError
           ("'" ++ type_name obj ++ "' object has no attribute 'items'"))
  end.

End Py.

(** * The [json] package

    The decoder follows CPython's [json.decoder] and its scanner (the
    grammar, the values built and the messages of [JSONDecodeError]);
    the encoder is restricted to what the class needs, a dictionary of
    integers. *)
Module Json.
Import Py.
Local Open Scope Z_scope.

(** ** Characters *)

Definition code (c : ascii) : Z := Z.of_N (N_of_ascii c).
Definition chr (n : Z) : ascii := ascii_of_N (Z.to_N n).

Definition is_whitespace (c : ascii) : bool :=
  let n := code c in (n =? 32) || (n =? 9) || (n =? 10) || (n =? 13).

Definition is_digit (c : ascii) : bool :=
  let n := code c in (48 <=? n) && (n <=? 57).

(** A byte that continues a UTF-8 sequence starts no character. *)
Definition is_continuation (c : ascii) : bool :=
  let n := code c in (128 <=? n) && (n <? 192).

(** The index of the character after [c], [idx] being the index of
    the character [c] belongs to. *)
Definition after (c : ascii) (idx : Z) : Z :=
  if is_continuation c then idx else idx + 1.

Definition hex_value (c : ascii) : option Z :=
  let n := code c in
  if (48 <=? n) && (n <=? 57) then Some (n - 48)
  else if (97 <=? n) && (n <=? 102) then Some (n - 87)
  else if (65 <=? n) && (n <=? 70) then Some (n - 55)
  else None.

Definition hex4 (a b c d : ascii) : option Z :=
  match hex_value a, hex_value b, hex_value c, hex_value d with
  | Some x, Some y, Some z, Some w => Some (((x * 16 + y) * 16 + z) * 16 + w)
  | _, _, _, _ => None
  end.

(** The UTF-8 encoding of a code point (a lone surrogate is encoded
    like any other code point of the basic plane). *)
Definition utf8 (u : Z) : string :=
  if u <? 128 then String (chr u) EmptyString
  else if u <? 2048 then
    String (chr (192 + u / 64)) (String (chr (128 + u mod 64)) EmptyString)
  else if u <? 65536 then
    String (chr (224 + u / 4096))
      (String (chr (128 + (u / 64) mod 64))
         (String (chr (128 + u mod 64)) EmptyString))
  else
    String (chr (240 + u / 262144))
      (String (chr (128 + (u / 4096) mod 64))
         (String (chr (128 + (u / 64) mod 64))
            (String (chr (128 + u mod 64)) EmptyString))).

(** ** Numbers *)

Fixpoint digits (s : string) : string * string :=
  match s with
  | String c s' =>
      if is_digit c then let '(ds, rest) := digits s' in (String c ds, rest)
      else (EmptyString, s)
  | EmptyString => (EmptyString, EmptyString)
  end.

Fixpoint int_of_digits (acc : Z) (ds : string) : Z :=
  match ds with
  | String c ds' => int_of_digits (10 * acc + (code c - 48)) ds'
  | EmptyString => acc
  end.

Definition len (s : string) : Z := Z.of_nat (String.length s).

(** The text after the character [c], when [s] starts with it. *)
Definition expect (c : ascii) (s : string) : option string :=
  match s with
  | String x rest => if Ascii.eqb x c then Some rest else None
  | EmptyString => None
  end.

(** [float(text)] for the decimal [m * 10 ^ e], correctly rounded to
    binary64, the sign given apart. *)
Definition float_of_decimal (neg : bool) (m e : Z) : spec_float :=
  match m with
  | Zpos p =>
      if 0 <=? e then
        let f := binary_normalize 53 1024 (Z.pos p * 10 ^ e) 0 false in
        if neg then SFopp f else f
      else
        let '(q, e', l) := SFdiv_core_binary 53 1024 (Z.pos p) 0 (10 ^ (- e)) 0 in
        binary_round_aux 53 1024 neg q e' l
  | _ => S754_zero neg
  end.

(** The result of scanning at an index: a value, the rest of the text
    and the index reached; a failure with its message and index, which
    becomes a [JSONDecodeError]; an exception of another class, raised
    on the way; or the fuel of the scanner used up. *)
Inductive scan (A : Type) : Type :=
  | Scanned (a : A) (rest : string) (idx : Z)
  | Failed (msg : string) (idx : Z)
  | Aborted (e : exn)
  | OutOfFuel.
Arguments Scanned {A} a rest idx.
Arguments Failed {A} msg idx.
Arguments Aborted {A} e.
Arguments OutOfFuel {A}.

(** [sys.get_int_max_str_digits()], by default: [int(text)] refuses a
    text of more decimal digits. *)
Definition int_max_str_digits : Z := 4300.

(** The number of decimal digits of an integer. *)
Definition decimal_digits (z : Z) : Z := len (pretty (Z.abs z)).

(** The [ValueError] of [int(text)] on a text of [n] digits, [n] being
    over the limit. *)
Definition digit_limit_error (n : Z) : exn :=
  Exn ValueError
    ("Exceeds the limit (" ++ pretty int_max_str_digits
       ++ " digits) for integer string conversion: value has " ++ pretty n
       ++ " digits; use sys.set_int_max_str_digits() to increase the limit").

(** [sys.getrecursionlimit()], by default.  The scanner goes one level
    down for each object or array it enters; the levels that the
    callers of [json.loads] already use are not counted. *)
Definition recursion_limit : nat := 1000.

(** The [RecursionError] of the scanner, entering an object or an
    array. *)
Definition recursion_error (what : string) : exn :=
  Exn RecursionError
    ("maximum recursion depth exceeded while decoding a JSON " ++ what
       ++ " from a unicode string").

(** The integer part: 0, or a digit from 1 to 9 followed by digits. *)
Definition integer_part (s : string) : option (string * string) :=
  match expect "0" s with
  | Some rest => Some ("0", rest)
  | None =>
      match digits s with
      | (EmptyString, _) => None
      | (ds, rest) => Some (ds, rest)
      end
  end.

(** The fraction: a dot followed by at least one digit. *)
Definition fraction_part (s : string) : option string * string :=
  match expect "." s with
  | Some t =>
      match digits t with
      | (EmptyString, _) => (None, s)
      | (fs, rest) => (Some fs, rest)
      end
  | None => (None, s)
  end.

(** The exponent: e or E, an optional sign, at least one digit.  The
    result holds the sign, the digits and how many characters the sign
    takes. *)
Definition exponent_part (s : string) : option (bool * string * Z) * string :=
  let after_e :=
    match expect "e" s with
    | Some t => Some t
    | None => expect "E" s
    end in
  match after_e with
  | Some t =>
      let '(eneg, t1, sl) :=
        match expect "-" t with
        | Some u => (true, u, 1)
        | None =>
            match expect "+" t with
            | Some u => (false, u, 1)
            | None => (false, t, 0)
            end
        end in
      match digits t1 with
      | (EmptyString, _) => (None, s)
      | (es, rest) => (Some (eneg, es, sl), rest)
      end
  | None => (None, s)
  end.

(** A number: an optional minus sign, the integer part, then optionally
    the fraction and the exponent.  An [int] when there is neither
    fraction nor exponent, unless its digits are over the limit of
    [int(text)]; a [float] otherwise. *)
Definition match_number (s : string) (idx : Z) : scan value :=
  let '(neg, s1) :=
    match expect "-" s with Some t => (true, t) | None => (false, s) end in
  match integer_part s1 with
  | None => Failed "Expecting value" idx
  | Some (ip, s2) =>
      let '(fp, s3) := fraction_part s2 in
      let '(ep, s4) := exponent_part s3 in
      let idx1 := idx + (if neg then 1 else 0) + len ip in
      let idx2 := idx1 + match fp with Some fs => 1 + len fs | None => 0 end in
      let idx3 := idx2 + match ep with
                         | Some (_, es, sl) => 1 + sl + len es
                         | None => 0
                         end in
      match fp, ep with
      | None, None =>
          if int_max_str_digits <? len ip then Aborted (digit_limit_error (len ip))
          else
            let n := int_of_digits 0 ip in
            Scanned (VInt (if neg then - n else n)) s4 idx3
      | _, _ =>
          let fs := match fp with Some fs => fs | None => EmptyString end in
          let ex := match ep with
                    | Some (eneg, es, _) =>
                        let n := int_of_digits 0 es in if eneg then - n else n
                    | None => 0
                    end in
          Scanned (VFloat (float_of_decimal neg (int_of_digits 0 (ip ++ fs))
                             (ex - len fs))) s4 idx3
      end
  end.

(** ** Strings *)

Definition cons_char (c : ascii) (r : scan string) : scan string :=
  match r with
  | Scanned s rest idx => Scanned (String c s) rest idx
  | _ => r
  end.

Definition cons_str (p : string) (r : scan string) : scan string :=
  match r with
  | Scanned s rest idx => Scanned (p ++ s) rest idx
  | _ => r
  end.

Definition is_high_surrogate (u : Z) : bool := (55296 <=? u) && (u <=? 56319).
Definition is_low_surrogate (u : Z) : bool := (56320 <=? u) && (u <=? 57343).
Definition join_surrogates (hi lo : Z) : Z :=
  65536 + ((hi - 55296) * 1024 + (lo - 56320)).

(** The character a backslash escape other than [\u] stands for. *)
Definition unescape (e : ascii) : option ascii :=
  let n := code e in
  if (n =? 34) || (n =? 92) || (n =? 47) then Some e
  else if n =? 98 then Some (chr 8)
  else if n =? 102 then Some (chr 12)
  else if n =? 110 then Some (chr 10)
  else if n =? 114 then Some (chr 13)
  else if n =? 116 then Some (chr 9)
  else None.

(** The low surrogate that follows a high one: [\u] and four hex
    digits, in the range of the low surrogates.  An escape that is not
    hexadecimal there is an error. *)
Definition low_surrogate (b u l1 l2 l3 l4 : ascii) : option (option Z) :=
  if (code b =? 92) && (code u =? 117) then
    match hex4 l1 l2 l3 l4 with
    | Some u2 => Some (if is_low_surrogate u2 then Some u2 else None)
    | None => None
    end
  else Some None.

(** [scanstring] in strict mode, [s] starting after the opening quote,
    which sits at index [start].  A [\u] escape wants its four hex
    digits and at least one character after them; a high surrogate is
    joined with the low surrogate that follows when the text goes on
    after that one too. *)
Fixpoint scanstring (s : string) (idx start : Z) : scan string :=
  match s with
  | EmptyString => Failed "Unterminated string starting at" start
  | String c s' =>
      if code c =? 34 then Scanned EmptyString s' (idx + 1)
      else if code c =? 92 then
        match s' with
        | EmptyString => Failed "Unterminated string starting at" start
        | String e r =>
            if code e =? 117 then
              match r with
              | String h1 (String h2 (String h3 (String h4 r1))) =>
                  match r1, hex4 h1 h2 h3 h4 with
                  | EmptyString, _ | _, None =>
                      Failed "Invalid \uXXXX escape" (idx + 1)
                  | String _ _, Some u =>
                      match r1 with
                      | String b (String u' (String l1 (String l2
                          (String l3 (String l4 r2))))) =>
                          match r2 with
                          | EmptyString =>
                              cons_str (utf8 u) (scanstring r1 (idx + 6) start)
                          | String _ _ =>
                              if is_high_surrogate u then
                                match low_surrogate b u' l1 l2 l3 l4 with
                                | None => Failed "Invalid \uXXXX escape" (idx + 7)
                                | Some (Some u2) =>
                                    cons_str (utf8 (join_surrogates u u2))
                                      (scanstring r2 (idx + 12) start)
                                | Some None =>
                                    cons_str (utf8 u) (scanstring r1 (idx + 6) start)
                                end
                              else cons_str (utf8 u) (scanstring r1 (idx + 6) start)
                          end
                      | _ => cons_str (utf8 u) (scanstring r1 (idx + 6) start)
                      end
                  end
              | _ => Failed "Invalid \uXXXX escape" (idx + 1)
              end
            else
              match unescape e with
              | Some x => cons_char x (scanstring r (idx + 2) start)
              | None => Failed "Invalid \escape" idx
              end
        end
      else if code c <=? 31 then Failed "Invalid control character at" idx
      else cons_char c (scanstring s' (after c idx) start)
  end.

(** ** Values *)

Fixpoint skip_whitespace (s : string) (idx : Z) : string * Z :=
  match s with
  | String c s' =>
      if is_whitespace c then skip_whitespace s' (idx + 1) else (s, idx)
  | EmptyString => (s, idx)
  end.

Fixpoint strip_prefix (p s : string) : option string :=
  match p, s with
  | EmptyString, _ => Some s
  | String a p', String b s' =>
      if Ascii.eqb a b then strip_prefix p' s' else None
  | String _ _, EmptyString => None
  end.

(** The constants: [null], [true], [false], and the three that are no
    JSON but that Python accepts. *)
Definition constants : list (string * value) :=
  [ ("null", VNone);
    ("true", VBool true);
    ("false", VBool false);
    ("NaN", VFloat S754_nan);
    ("Infinity", VFloat (S754_infinity false));
    ("-Infinity", VFloat (S754_infinity true)) ].

(** The constant [s] starts with, or else a number. *)
Fixpoint constant_or_number (cs : list (string * value)) (s : string) (idx : Z)
    : scan value :=
  match cs with
  | [] => match_number s idx
  | (word, v) :: cs' =>
      match strip_prefix word s with
      | Some rest => Scanned v rest (idx + len word)
      | None => constant_or_number cs' s idx
      end
  end.

(** [scan_once], with the loops of [JSONObject] and [JSONArray]: a
    string, an object, an array, a constant or a number.  The scanner
    enters a recursive call of the interpreter for every object and
    every array it opens: [depth] is the number of such calls that are
    left, and opening a container when none is left brings the
    decoding to an end with a [RecursionError].  The recursion of the
    model itself is bounded by [fuel], one unit per call; [loads] gives
    more than the text can use. *)
Fixpoint scan_once (fuel depth : nat) (s : string) (idx : Z) {struct fuel} : scan value :=
  match fuel with
  | O => OutOfFuel
  | S fuel =>
      match expect dq_char s with
      | Some s' =>
          match scanstring s' (idx + 1) idx with
          | Scanned str rest i => Scanned (VStr str) rest i
          | Failed msg i => Failed msg i
          | Aborted e => Aborted e
          | OutOfFuel => OutOfFuel
          end
      | None =>
      match expect "{" s with
      | Some s' =>
          match depth with
          | O => Aborted (recursion_error "object")
          | S depth =>
              let '(s1, i1) := skip_whitespace s' (idx + 1) in
              match expect "}" s1 with
              | Some rest => Scanned (VDict ∅) rest (i1 + 1)
              | None => scan_pairs fuel depth s1 i1 ∅
              end
          end
      | None =>
      match expect "[" s with
      | Some s' =>
          match depth with
          | O => Aborted (recursion_error "array")
          | S depth =>
              let '(s1, i1) := skip_whitespace s' (idx + 1) in
              match expect "]" s1 with
              | Some rest => Scanned (VList []) rest (i1 + 1)
              | None => scan_items fuel depth s1 i1 []
              end
          end
      | None => constant_or_number constants s idx
      end end end
  end
with scan_pairs (fuel depth : nat) (s : string) (idx : Z) (acc : gmap string value)
    {struct fuel} : scan value :=
  match fuel with
  | O => OutOfFuel
  | S fuel =>
      match expect dq_char s with
      | None => Failed "Expecting property name enclosed in double quotes" idx
      | Some s' =>
          match scanstring s' (idx + 1) idx with
          | Failed msg i => Failed msg i
          | Aborted e => Aborted e
          | OutOfFuel => OutOfFuel
          | Scanned key s1 i1 =>
              let '(s2, i2) := skip_whitespace s1 i1 in
              match expect ":" s2 with
              | None => Failed "Expecting ':' delimiter" i2
              | Some s3 =>
                  let '(s4, i4) := skip_whitespace s3 (i2 + 1) in
                  match scan_once fuel depth s4 i4 with
                  | Failed msg i => Failed msg i
                  | Aborted e => Aborted e
                  | OutOfFuel => OutOfFuel
                  | Scanned v s5 i5 =>
                      let acc' := <[key := v]> acc in
                      let '(s6, i6) := skip_whitespace s5 i5 in
                      match expect "}" s6 with
                      | Some rest => Scanned (VDict acc') rest (i6 + 1)
                      | None =>
                          match expect "," s6 with
                          | Some s7 =>
                              let '(s8, i8) := skip_whitespace s7 (i6 + 1) in
                              scan_pairs fuel depth s8 i8 acc'
                          | None => Failed "Expecting ',' delimiter" i6
                          end
                      end
                  end
              end
          end
      end
  end
with scan_items (fuel depth : nat) (s : string) (idx : Z) (acc : list value)
    {struct fuel} : scan value :=
  match fuel with
  | O => OutOfFuel
  | S fuel =>
      match scan_once fuel depth s idx with
      | Failed msg i => Failed msg i
      | Aborted e => Aborted e
      | OutOfFuel => OutOfFuel
      | Scanned v s1 i1 =>
          let acc' := (acc ++ [v])%list in
          let '(s2, i2) := skip_whitespace s1 i1 in
          match expect "]" s2 with
          | Some rest => Scanned (VList acc') rest (i2 + 1)
          | None =>
              match expect "," s2 with
              | Some s3 =>
                  let '(s4, i4) := skip_whitespace s3 (i2 + 1) in
                  scan_items fuel depth s4 i4 acc'
              | None => Failed "Expecting ',' delimiter" i2
              end
          end
      end
  end.

(** A scan that has not used up the fuel of the model and that, when
    it has scanned something, has taken it from the text [s]. *)
Definition consumes {A} (s : string) (r : scan A) : Prop :=
  match r with
  | Scanned _ rest _ => (String.length rest < String.length s)%nat
  | Failed _ _ => True
  | Aborted _ => True
  | OutOfFuel => False
  end.

(** What ends a scan short of a syntax error is the recursion limit or
    the digit limit of [int]. *)
Definition aborts_on_a_limit {A} (r : scan A) : Prop :=
  match r with
  | Aborted e => exn_class e = RecursionError \/ exn_class e = ValueError
  | _ => True
  end.

(** A text that starts like a number: a digit, or a minus sign and a
    digit. *)
Definition starts_number (s : string) : Prop :=
  (exists c tl, s = String c tl /\
      In c ["0"; "1"; "2"; "3"; "4"; "5"; "6"; "7"; "8"; "9"]%char) \/
  (exists c tl, s = String "-" (String c tl) /\
      In c ["0"; "1"; "2"; "3"; "4"; "5"; "6"; "7"; "8"; "9"]%char).

(** What follows a number in the output of [dumps]: a comma or a
    closing brace. *)
Definition ends_number (rest : string) : Prop :=
  exists tl, rest = String "," tl \/ rest = String "}" tl.

(** ** [JSONDecodeError] *)

(** The line and the column of the character at index [pos]:
    [doc.count('\n', 0, pos) + 1] and [pos - doc.rindex('\n', 0, pos)],
    or [pos + 1] on the first line. *)
Fixpoint line_col (doc : string) (i pos line : Z) (last_nl : option Z) : Z * Z :=
  match doc with
  | String c doc' =>
      if i <? pos then
        if code c =? 10 then line_col doc' (i + 1) pos (line + 1) (Some i)
        else line_col doc' (after c i) pos line last_nl
      else (line, match last_nl with Some j => pos - j | None => pos + 1 end)
  | EmptyString =>
      (line, match last_nl with Some j => pos - j | None => pos + 1 end)
  end.

Definition decode_error (msg doc : string) (pos : Z) : exn :=
  let '(lineno, colno) := line_col doc 0 pos 1 None in
  Exn JSONDecodeError
    (msg ++ ": line " ++ pretty lineno ++ " column " ++ pretty colno
         ++ " (char " ++ pretty pos ++ ")")%string.

(** ** [json.loads] on a [str] *)

Definition bom : string := utf8 65279.

(** [loads] with [depth] recursive calls left to the scanner.  A text
    that is no JSON document raises [JSONDecodeError]; the exception
    that ends a decoding short of that (the recursion limit, the digit
    limit of [int]) is raised as it is.  The fuel is more than the
    scanner can use, so that the last case never arises. *)
Definition loads_within (depth : nat) (s : string) : outcome value :=
  match strip_prefix bom s with
  | Some _ =>
      Raised (decode_error "Unexpected UTF-8 BOM (decode using utf-8-sig)" s 0)
  | None =>
      let '(s1, i1) := skip_whitespace s 0 in
      match scan_once (S (2 * String.length s)) depth s1 i1 with
      | Scanned v rest i =>
          let '(rest', i') := skip_whitespace rest i in
          match rest' with
          | EmptyString => Returned v
          | _ => Raised (decode_error "Extra data" s i')
          end
      | Failed msg i => Raised (decode_error msg s i)
      | Aborted e => Raised e
      | OutOfFuel => Raised (recursion_error "document")
      end
  end.

(** The frames of the callers count against the recursion limit too,
    and the program does not fix how many there are: the model gives
    the decoder the whole of the default limit.  Nothing that is
    proved of [loads] below depends on the number. *)
Definition loads (s : string) : outcome value :=
  loads_within recursion_limit s.

(** ** [json.dumps] of a dictionary of integers *)

Definition hex_digit (n : Z) : ascii :=
  if n <? 10 then chr (48 + n) else chr (87 + n).

(** [ESCAPE_DCT]: the characters [json.dumps(..., ensure_ascii=False)]
    escapes inside a string. *)
Definition escape_char (c : ascii) : string :=
  let n := code c in
  if n =? 34 then String "\"%char dq
  else if n =? 92 then "\\"
  else if n =? 10 then "\n"
  else if n =? 13 then "\r"
  else if n =? 9 then "\t"
  else if n =? 8 then "\b"
  else if n =? 12 then "\f"
  else if n <? 32 then
    "\u00" ++ String (hex_digit (n / 16)) (String (hex_digit (n mod 16)) EmptyString)
  else String c EmptyString.

Fixpoint escape (s : string) : string :=
  match s with
  | String c s' => escape_char c ++ escape s'
  | EmptyString => EmptyString
  end.

Definition dumps_str (s : string) : string := dq ++ escape s ++ dq.

Fixpoint dumps_items (items : list (string * Z)) : string :=
  match items with
  | [] => EmptyString
  | [(k, v)] => dumps_str k ++ ": " ++ pretty v
  | (k, v) :: rest => dumps_str k ++ ": " ++ pretty v ++ ", " ++ dumps_items rest
  end.

(** [json.dumps(d, ensure_ascii=False)], [d] given by its items in
    insertion order. *)
Definition dumps (items : list (string * Z)) : string :=
  "{" ++ dumps_items items ++ "}".

End Json.

(** * LangChain fragments: chat prompt templates and chains *)
Module LangChain.
Import Py.

(** A template argument: a [str] or an [int]. *)
Inductive arg : Type :=
  | AStr (s : string)
  | AInt (z : Z).

(** [format(a, '')] *)
Definition render (a : arg) : string :=
  match a with
  | AStr s => s
  | AInt z => pretty z
  end.

(** Where the formatter stands in the template: in plain text, after
    an opening brace, inside a field name, after a closing brace. *)
Inductive place : Type :=
  | InText
  | AfterOpen
  | InField (name : string)
  | AfterClose.

Definition emit (p : string) (r : outcome string) : outcome string :=
  match r with
  | Returned s => Returned (p ++ s)
  | Raised e => Raised e
  end.

(** The f-string formatter: a doubled brace stands for a brace, a name
    in braces for the argument of that name.  A missing argument is a
    [KeyError]. *)
Fixpoint format_from (at_ : place) (template : string)
    (args : gmap string arg) : outcome string :=
  match template with
  | EmptyString =>
      match at_ with
      | InText => Returned EmptyString
      | AfterOpen => Raised (Exn ValueError "Single '{' encountered in format string")
      | InField _ => Raised (Exn ValueError "expected '}' before end of string")
      | AfterClose => Raised (Exn ValueError "Single '}' encountered in format string")
      end
  | String c rest =>
      match at_ with
      | InText =>
          match c with
          | "{"%char => format_from AfterOpen rest args
          | "}"%char => format_from AfterClose rest args
          | _ => emit (String c EmptyString) (format_from InText rest args)
          end
      | AfterOpen =>
          match c with
          | "{"%char => emit "{" (format_from InText rest args)
          | "}"%char =>
              Raised (Exn IndexError
                        "Replacement index 0 out of range for positional args tuple")
          | _ => format_from (InField (String c EmptyString)) rest args
          end
      | InField name =>
          match c with
          | "}"%char =>
              match args !! name with
              | Some a => emit (render a) (format_from InText rest args)
              | None => Raised (Exn KeyError ("'" ++ name ++ "'"))
              end
          | _ => format_from (InField (name ++ String c EmptyString)) rest args
          end
      | AfterClose =>
          match c with
          | "}"%char => emit "}" (format_from InText rest args)
          | _ => Raised (Exn ValueError "Single '}' encountered in format string")
          end
      end
  end.

Definition format (template : string) (args : gmap string arg) : outcome string :=
  format_from InText template args.

Inductive role : Type := system | human | ai.

Record message : Type := Message { msg_role : role; content : string }.

(** [ChatPromptTemplate.from_messages]: the roles with their templates. *)
Definition ChatPromptTemplate : Type := list (role * string).

Fixpoint format_messages (prompt : ChatPromptTemplate) (args : gmap string arg)
    : outcome (list message) :=
  match prompt with
  | [] => Returned []
  | (r, template) :: rest =>
      match format template args with
      | Returned text =>
          match format_messages rest args with
          | Returned ms => Returned (Message r text :: ms)
          | Raised e => Raised e
          end
      | Raised e => Raised e
      end
  end.

(** A chat model: given the messages, it returns its reply or raises
    (transport failure, rejected credentials, rate limit). *)
Definition ChatModel : Type := list message -> outcome message.

(** [prompt | llm], and [chain.invoke(args)]. *)
Record chain : Type := Pipe { chain_prompt : ChatPromptTemplate; chain_llm : ChatModel }.

Definition invoke (c : chain) (args : gmap string arg) : outcome message :=
  match format_messages (chain_prompt c) args with
  | Returned ms => chain_llm c ms
  | Raised e => Raised e
  end.

End LangChain.

(** * [services/stat_calculator.py] *)

Record Stats : Type := {
  intimacy : Z;
  mental : Z;
  stamina : Z;
  power : Z;
  speed : Z
}.

Record GameState : Type := {
  stats : Stats;
  current_month : Z
}.

Fixpoint unlines (ls : list string) : string :=
  match ls with
  | [] => EmptyString
  | [l] => l
  | l :: rest => l ++ nl ++ unlines rest
  end.

Module StatCalculator.
Import Py LangChain.

Record t : Type := { llm : ChatModel }.

Definition SYSTEM_TEMPLATE : string := unlines [
  "당신은 야구 선수 코칭 상황을 분석하는 전문가입니다.";
  EmptyString;
  "코치(사용자)와 선수(AI)의 대화를 분석하여, 다음 스탯에 미칠 영향을 평가하세요:";
  EmptyString;
  "**스탯 종류 및 변화 범위:**";
  "- intimacy (친밀도): -10 ~ +10";
  "  * 공감, 격려, 개인적 관심 → 상승";
  "  * 무시, 비난, 강압적 태도 → 하락";
  EmptyString;
  "- mental (멘탈): -10 ~ +10";
  "  * 자신감 부여, 성공 경험 강조 → 상승";
  "  * 비판, 실패 강조, 압박 → 하락";
  EmptyString;
  "- stamina (체력): -5 ~ +5";
  "  * 체력 훈련 언급, 휴식 권장 → 변화";
  "  * 과도한 훈련 → 하락";
  EmptyString;
  "- power (힘): -5 ~ +5";
  "  * 근력 훈련 언급, 타격 연습 → 변화";
  EmptyString;
  "- speed (주루능력): -5 ~ +5";
  "  * 주루 훈련 언급, 도루 연습 → 변화";
  "  * 도루 관련 부정적 언급 → 하락 (트라우마 고려)";
  EmptyString;
  "**중요:**";
  "- 일반적인 대화는 스탯 변화가 적거나 없을 수 있습니다";
  "- 구체적인 훈련이나 감정적 교류가 있을 때만 큰 변화";
  "- 선수의 트라우마(도루 공포증)를 고려하세요";
  "- 현재 친밀도가 낮으면 긍정적 효과도 제한적입니다";
  EmptyString;
  "**응답 형식 (JSON):**";
  "{{";
  "    " ++ dq ++ "stat_changes" ++ dq ++ ": {{";
  "        " ++ dq ++ "intimacy" ++ dq ++ ": 0,";
  "        " ++ dq ++ "mental" ++ dq ++ ": 0,";
  "        " ++ dq ++ "stamina" ++ dq ++ ": 0,";
  "        " ++ dq ++ "power" ++ dq ++ ": 0,";
  "        " ++ dq ++ "speed" ++ dq ++ ": 0";
  "    }},";
  "    " ++ dq ++ "reason" ++ dq ++ ": " ++ dq ++ "변화 이유를 한 문장으로 설명" ++ dq ++ ",";
  "    " ++ dq ++ "analysis" ++ dq ++ ": " ++ dq ++ "상세 분석 (선택)" ++ dq;
  "}}";
  EmptyString;
  "변화가 없는 스탯은 0으로 설정하거나 생략 가능합니다."
].

Definition HUMAN_TEMPLATE : string := unlines [
  "[현재 게임 상태]";
  "- 현재 시점: {current_month}월";
  "- 현재 스탯: {current_stats}";
  EmptyString;
  "[이번 대화]";
  "코치(사용자): {user_message}";
  "민석(AI): {bot_reply}";
  EmptyString;
  "{context_info}";
  EmptyString;
  "이 대화가 민석의 스탯에 미치는 영향을 분석해주세요."
].

Definition prompt : ChatPromptTemplate :=
  [(system, SYSTEM_TEMPLATE); (human, HUMAN_TEMPLATE)].

(** [current_stats], the dictionary literal, by its items in order. *)
Definition current_stats (game_state : GameState) : list (string * Z) :=
  [ ("intimacy", intimacy (stats game_state));
    ("mental", mental (stats game_state));
    ("stamina", stamina (stats game_state));
    ("power", power (stats game_state));
    ("speed", speed (stats game_state)) ].

(** [f"[대화 맥락]\n{conversation_context}" if conversation_context else ""]:
    [None] and the empty string are both false. *)
Definition context_info (conversation_context : option string) : string :=
  match conversation_context with
  | Some (String c s) => "[대화 맥락]" ++ nl ++ String c s
  | Some EmptyString | None => EmptyString
  end.

(** The argument of [chain.invoke]. *)
Definition chain_input (user_message bot_reply : string) (game_state : GameState)
    (conversation_context : option string) : gmap string arg :=
  <["current_month" := AInt (current_month game_state)]>
  (<["current_stats" := AStr (Json.dumps (current_stats game_state))]>
  (<["user_message" := AStr user_message]>
  (<["bot_reply" := AStr bot_reply]>
  (<["context_info" := AStr (context_info conversation_context)]> ∅)))).

Definition ANALYSIS_COMPLETE : string := "대화 분석 완료".
Definition ANALYSIS_FAILED : string := "스탯 분석 실패".

Definition warning (e : exn) : string :=
  "[WARNING] 스탯 분석 실패 (" ++ class_name (exn_class e) ++ "): " ++ exn_str e.

Definition analyze_conversation (self : t) (user_message bot_reply : string)
    (game_state : GameState) (conversation_context : option string)
    : M (gmap string value * value) :=
  let chain := Pipe prompt (llm self) in
  try_except_decode_or_key
    (response ← lift (invoke chain
                       (chain_input user_message bot_reply game_state
                          conversation_context));
     result ← lift (Json.loads (content response));
     stat_changes ← lift (get result "stat_changes" (VDict ∅));
     reason ← lift (get result "reason" (VStr ANALYSIS_COMPLETE));
     stat_changes ← lift (nonzero_items stat_changes);
     ret (stat_changes, reason))
    (fun e =>
       _ ← print (warning e);
       ret (∅, VStr ANALYSIS_FAILED)).

Definition training_effects : gmap string (gmap string Z) :=
  <["체력" := <["stamina" := 5%Z]> (<["mental" := 2%Z]> ∅)]>
  (<["근력" := <["power" := 5%Z]> (<["stamina" := (-2)%Z]> ∅)]>
  (<["주루" := <["speed" := 5%Z]> (<["mental" := 3%Z]> ∅)]>
  (<["타격" := <["power" := 3%Z]> (<["mental" := 2%Z]> ∅)]>
  (<["멘탈" := <["mental" := 5%Z]> (<["intimacy" := 2%Z]> ∅)]> ∅)))).

Definition calculate_training_bonus (self : t) (training_type : string)
    (game_state : GameState) : gmap string Z :=
  default ∅ (training_effects !! training_type).

Definition get_intimacy_level (self : t) (intimacy : Z) : string :=
  if (intimacy <? 20)%Z then "매우 낮음 - 거의 대화하지 않으려 함"
  else if (intimacy <? 40)%Z then "낮음 - 방어적이고 거리를 둠"
  else if (intimacy <? 60)%Z then "보통 - 조금씩 마음을 열기 시작"
  else if (intimacy <? 80)%Z then "높음 - 신뢰하고 협조적"
  else "매우 높음 - 진심으로 존경하고 따름".

End StatCalculator.

(** * What the oracle is sent *)
Module Prompt.
Import Py LangChain StatCalculator.

(** The system instruction: the system template once formatted (it
    names no argument). *)
Definition system_text : string :=
  Eval vm_compute in
    match format SYSTEM_TEMPLATE ∅ with
    | Returned s => s
    | Raised _ => EmptyString
    end.

(** The per-call instruction: the human template with the five
    arguments in place. *)
Definition human_text (user_message bot_reply : string) (game_state : GameState)
    (conversation_context : option string) : string :=
  "[현재 게임 상태]" ++ nl ++
  "- 현재 시점: " ++ pretty (current_month game_state) ++ "월" ++ nl ++
  "- 현재 스탯: " ++ Json.dumps (current_stats game_state) ++ nl ++
  nl ++
  "[이번 대화]" ++ nl ++
  "코치(사용자): " ++ user_message ++ nl ++
  "민석(AI): " ++ bot_reply ++ nl ++
  nl ++
  context_info conversation_context ++ nl ++
  nl ++
  "이 대화가 민석의 스탯에 미치는 영향을 분석해주세요.".

Definition messages (user_message bot_reply : string) (game_state : GameState)
    (conversation_context : option string) : list message :=
  [ Message system system_text;
    Message human (human_text user_message bot_reply game_state conversation_context) ].

(** What the [except] clause of [analyze_conversation] makes of an
    exception raised in the [try] block, [out] being the standard
    output at that point. *)
Definition absorbed (e : Py.exn) (out : list string)
    : outcome (gmap string value * value) * list string :=
  if is_decode_or_key_error e
  then (Returned (∅, VStr ANALYSIS_FAILED), (out ++ [warning e])%list)
  else (Raised e, out).

End Prompt.

(** * The intimacy tiers, as the specification words them *)
Module Tiers.

(** The four thresholds, and the five descriptors from the lowest
    disposition to the highest. *)
Definition thresholds : list Z := [20; 40; 60; 80]%Z.

Definition descriptors : list string :=
  [ "매우 낮음 - 거의 대화하지 않으려 함";
    "낮음 - 방어적이고 거리를 둠";
    "보통 - 조금씩 마음을 열기 시작";
    "높음 - 신뢰하고 협조적";
    "매우 높음 - 진심으로 존경하고 따름" ].

(** The band of a score: how many thresholds it has reached, each
    band being inclusive at its lower bound. *)
Definition band (score : Z) : nat :=
  length (filter (fun t => (t <=? score)%Z = true) thresholds).

(** The rank of a descriptor: its position among the five. *)
Fixpoint position (s : string) (l : list string) : option nat :=
  match l with
  | [] => None
  | x :: rest => if String.eqb s x then Some O else S <$> position s rest
  end.

Definition rank (descriptor : string) : option nat := position descriptor descriptors.

End Tiers.

(** * Scenarios *)
Module Scenario.
Import Py LangChain.

(** A chat model stubbed to reply with a canned text. *)
Definition replying (text : string) : StatCalculator.t :=
  {| StatCalculator.llm := fun _ => Returned (Message ai text) |}.

Definition quoted (s : string) : string := dq ++ s ++ dq.

Definition month3 : GameState :=
  {| stats := {| intimacy := 30; mental := 50; stamina := 60; power := 40; speed := 45 |};
     current_month := 3 |}.

Definition praise : string := "You did great today, keep it up!".
Definition thanks : string := "Thanks, coach!".

(** [{"stat_changes":{"intimacy":5,"mental":3,"stamina":0},"reason":"Positive encouragement"}] *)
Definition encouraged : string :=
  "{" ++ quoted "stat_changes" ++ ":{" ++ quoted "intimacy" ++ ":5,"
      ++ quoted "mental" ++ ":3," ++ quoted "stamina" ++ ":0},"
      ++ quoted "reason" ++ ":" ++ quoted "Positive encouragement" ++ "}".

(** [{"stat_changes": 7}] *)
Definition stat_changes_is_a_number : string :=
  "{" ++ quoted "stat_changes" ++ ": 7}".

(** [{"stat_changes":{"power":0.0,"speed":false,"stamina":-0.0}}] *)
Definition float_zero_and_false : string :=
  "{" ++ quoted "stat_changes" ++ ":{" ++ quoted "power" ++ ":0.0,"
      ++ quoted "speed" ++ ":false," ++ quoted "stamina" ++ ":-0.0}}".

(** [{"stat_changes":{"luck":1000,"mental":"5","power":2.5,"speed":null,"stamina":0}}] *)
Definition loose : string :=
  "{" ++ quoted "stat_changes" ++ ":{" ++ quoted "luck" ++ ":1000,"
      ++ quoted "mental" ++ ":" ++ quoted "5" ++ ","
      ++ quoted "power" ++ ":2.5," ++ quoted "speed" ++ ":null,"
      ++ quoted "stamina" ++ ":0}}".

(** [{"reason":"Small talk"}] *)
Definition reason_only : string :=
  "{" ++ quoted "reason" ++ ":" ++ quoted "Small talk" ++ "}".

(** [{"stat_changes":{"intimacy":0,"mental":0}}] *)
Definition zeros_only : string :=
  "{" ++ quoted "stat_changes" ++ ":{" ++ quoted "intimacy" ++ ":0,"
      ++ quoted "mental" ++ ":0}}".




(** [{"stat_changes":{"intimacy":5,"mental":3}}] *)
Definition clean : string :=
  "{" ++ quoted "stat_changes" ++ ":{" ++ quoted "intimacy" ++ ":5,"
      ++ quoted "mental" ++ ":3}}".

(** [{"reason": null}] *)
Definition reason_is_null : string :=
  "{" ++ quoted "reason" ++ ": null}".

(** The encouraging reply with an [analysis] field:
    [{"analysis":"Warm tone","stat_changes":{"intimacy":5,"mental":3,"stamina":0},"reason":"Positive encouragement"}] *)
Definition encouraged_with_analysis : string :=
  "{" ++ quoted "analysis" ++ ":" ++ quoted "Warm tone" ++ ","
      ++ quoted "stat_changes" ++ ":{" ++ quoted "intimacy" ++ ":5,"
      ++ quoted "mental" ++ ":3," ++ quoted "stamina" ++ ":0},"
      ++ quoted "reason" ++ ":" ++ quoted "Positive encouragement" ++ "}".

(** The encouraging reply inside a Markdown code fence. *)
Definition fenced : string :=
  "```json" ++ nl ++ encouraged ++ nl ++ "```".

(** The text [s], [n] times. *)
Fixpoint repeated (n : nat) (s : string) : string :=
  match n with
  | O => EmptyString
  | S n => s ++ repeated n s
  end.

(** Lists inside lists, one more than the recursion limit allows, and
    none of them closed. *)
Definition deeply_nested : string := repeated (S Json.recursion_limit) "[".

(** An integer of 4301 digits. *)
Definition long_integer : string := repeated 4301 "7".

End Scenario.

(** * The decoder: its fuel is out of reach, and what ends a decoding *)
Section DecoderFuel.
Import Py Json.

Lemma expect_size c s rest : expect c s = Some rest -> String.length s = S (String.length rest).
Proof.
  destruct s as [|x s]; cbn; [discriminate|].
  destruct (Ascii.eqb x c); now intros [= ->].
Qed.

Lemma skip_whitespace_size s idx : String.length (skip_whitespace s idx).1 <= String.length s.
Proof.
  revert idx. induction s as [|c s IH]; intros idx; cbn; [lia|].
  destruct (is_whitespace c); cbn; [specialize (IH (idx + 1)%Z); lia | lia].
Qed.

Lemma digits_size s : String.length (digits s).2 <= String.length s.
Proof.
  induction s as [|c s IH]; cbn; [lia|].
  destruct (is_digit c); [|cbn; lia].
  destruct (digits s) as [ds rest]; cbn in *; lia.
Qed.

Lemma strip_prefix_size p s rest :
  strip_prefix p s = Some rest -> String.length s = String.length p + String.length rest.
Proof.
  revert s. induction p as [|a p IH]; intros s; cbn.
  - now intros [= ->].
  - destruct s as [|b s]; [discriminate|].
    destruct (Ascii.eqb a b); [|discriminate].
    intros H. apply IH in H. cbn. lia.
Qed.

Lemma integer_part_size s ip rest :
  integer_part s = Some (ip, rest) -> String.length rest < String.length s.
Proof.
  unfold integer_part.
  destruct (expect "0" s) as [t|] eqn:E.
  - intros [= <- <-]. apply expect_size in E. lia.
  - pose proof (digits_size s) as Hd.
    destruct s as [|c s']; [cbn; discriminate|].
    cbn in *. destruct (is_digit c); [|discriminate].
    pose proof (digits_size s') as Hd'.
    destruct (digits s') as [ds r]. cbn in *.
    intros [= <- <-]. lia.
Qed.

Lemma fraction_part_size s : String.length (fraction_part s).2 <= String.length s.
Proof.
  unfold fraction_part.
  destruct (expect "." s) as [t|] eqn:E; [|cbn; lia].
  apply expect_size in E. pose proof (digits_size t) as Hd.
  destruct (digits t) as [[|c ds] r]; cbn in *; lia.
Qed.

Lemma exponent_part_size s : String.length (exponent_part s).2 <= String.length s.
Proof.
  unfold exponent_part.
  assert (H : forall t, match expect "e" s with Some t => Some t | None => expect "E" s end
                        = Some t -> String.length s = S (String.length t)).
  { intros t. destruct (expect "e" s) eqn:E.
    - intros [= <-]. now apply expect_size in E.
    - apply expect_size. }
  destruct (match expect "e" s with Some t => Some t | None => expect "E" s end)
    as [t|]; [|cbn; lia].
  specialize (H t eq_refl).
  destruct (expect "-" t) as [u|] eqn:E1.
  - apply expect_size in E1. pose proof (digits_size u).
    destruct (digits u) as [[|c ds] r]; cbn in *; lia.
  - destruct (expect "+" t) as [u|] eqn:E2.
    + apply expect_size in E2. pose proof (digits_size u).
      destruct (digits u) as [[|c ds] r]; cbn in *; lia.
    + pose proof (digits_size t).
      destruct (digits t) as [[|c ds] r]; cbn in *; lia.
Qed.

Lemma consumes_longer {A} s s' (r : scan A) :
  consumes s' r -> String.length s' <= String.length s -> consumes s r.
Proof. destruct r; cbn; [lia | trivial | trivial | trivial]. Qed.

Lemma consumes_cons_char c s r : consumes s r -> consumes s (cons_char c r).
Proof. now destruct r. Qed.

Lemma consumes_cons_str p s r : consumes s r -> consumes s (cons_str p r).
Proof. now destruct r. Qed.

Lemma match_number_consumes s idx : consumes s (match_number s idx).
Proof.
  unfold match_number.
  assert (H1 : String.length (match expect "-" s with Some t => (true, t) | None => (false, s) end).2
               <= String.length s).
  { destruct (expect "-" s) eqn:E; cbn; [apply expect_size in E|]; lia. }
  destruct (match expect "-" s with Some t => (true, t) | None => (false, s) end)
    as [neg s1]. cbn in H1.
  destruct (integer_part s1) as [[ip s2]|] eqn:E2; [|exact I].
  apply integer_part_size in E2.
  pose proof (fraction_part_size s2) as H3.
  destruct (fraction_part s2) as [fp s3]. cbn in H3.
  pose proof (exponent_part_size s3) as H4.
  destruct (exponent_part s3) as [ep s4]. cbn in H4.
  destruct fp, ep; cbn; try lia.
  destruct (int_max_str_digits <? len ip)%Z; cbn; [trivial | lia].
Qed.

Lemma constant_or_number_consumes cs s idx :
  Forall (fun wv : string * value => wv.1 <> EmptyString) cs ->
  consumes s (constant_or_number cs s idx).
Proof.
  induction 1 as [|[word v] cs Hword _ IH]; cbn.
  - apply match_number_consumes.
  - destruct (strip_prefix word s) as [rest|] eqn:E; [|exact IH].
    apply strip_prefix_size in E. cbn in *.
    destruct word; [congruence | cbn in E; lia].
Qed.

Lemma constants_consume s idx : consumes s (constant_or_number constants s idx).
Proof.
  apply constant_or_number_consumes. unfold constants.
  repeat constructor; discriminate.
Qed.

Lemma scanstring_consumes_bounded n :
  forall s idx start, String.length s <= n -> consumes s (scanstring s idx start).
Proof.
  induction n as [|n IH]; intros s idx start Hn.
  - destruct s; [exact I | cbn in Hn; lia].
  - destruct s as [|c s']; [exact I|].
    cbn [scanstring].
    destruct (code c =? 34)%Z; [cbn; lia|].
    destruct (code c =? 92)%Z.
    + destruct s' as [|e r]; [exact I|].
      destruct (code e =? 117)%Z.
      * destruct r as [|h1 [|h2 [|h3 [|h4 r1]]]]; try exact I.
        destruct r1 as [|b r1]; [exact I|].
        destruct (hex4 h1 h2 h3 h4) as [u|]; [|exact I].
        assert (Hr1 : consumes (String c (String e (String h1 (String h2
                        (String h3 (String h4 (String b r1)))))))
                        (cons_str (utf8 u)
                           (scanstring (String b r1) (idx + 6) start))).
        { apply consumes_cons_str.
          eapply consumes_longer; [apply IH; cbn in *; lia | cbn; lia]. }
        destruct r1 as [|u' [|l1 [|l2 [|l3 [|l4 [|x r2]]]]]]; try exact Hr1.
        destruct (is_high_surrogate u); [|exact Hr1].
        destruct (low_surrogate b u' l1 l2 l3 l4) as [[u2|]|];
          [ | exact Hr1 | exact I].
        apply consumes_cons_str.
        eapply consumes_longer; [apply IH; cbn in *; lia | cbn; lia].
      * destruct (unescape e); [|exact I].
        apply consumes_cons_char.
        eapply consumes_longer; [apply IH; cbn in *; lia | cbn; lia].
    + destruct (code c <=? 31)%Z; [exact I|].
      apply consumes_cons_char.
      eapply consumes_longer; [apply IH; cbn in *; lia | cbn; lia].
Qed.

Lemma scanstring_consumes s idx start : consumes s (scanstring s idx start).
Proof. now apply (scanstring_consumes_bounded (String.length s)). Qed.

(** With more fuel than twice the length of the text, plus one for the
    loops, the scanner never uses up its fuel, and what it scans it
    takes from the text. *)
Lemma scan_consumes fuel :
  (forall depth s idx,
     2 * String.length s < fuel -> consumes s (scan_once fuel depth s idx)) /\
  (forall depth s idx acc,
     2 * String.length s + 1 < fuel -> consumes s (scan_pairs fuel depth s idx acc)) /\
  (forall depth s idx acc,
     2 * String.length s + 1 < fuel -> consumes s (scan_items fuel depth s idx acc)).
Proof.
  induction fuel as [|fuel (IHonce & IHpairs & IHitems)].
  - repeat split; intros; lia.
  - repeat split.
    + intros depth s idx Hfuel. cbn [scan_once].
      destruct (expect dq_char s) as [s'|] eqn:Eq.
      { apply expect_size in Eq.
        pose proof (scanstring_consumes s' (idx + 1) idx) as Hs.
        destruct (scanstring s' (idx + 1) idx); cbn in *;
          [lia | trivial | trivial | trivial]. }
      destruct (expect "{" s) as [s'|] eqn:Eo.
      { destruct depth as [|depth]; [exact I|].
        apply expect_size in Eo.
        pose proof (skip_whitespace_size s' (idx + 1)) as Hw.
        destruct (skip_whitespace s' (idx + 1)) as [s1 i1]. cbn in Hw.
        destruct (expect "}" s1) as [rest|] eqn:Ec.
        - apply expect_size in Ec. cbn. lia.
        - eapply consumes_longer; [apply IHpairs; lia | lia]. }
      destruct (expect "[" s) as [s'|] eqn:Ea.
      { destruct depth as [|depth]; [exact I|].
        apply expect_size in Ea.
        pose proof (skip_whitespace_size s' (idx + 1)) as Hw.
        destruct (skip_whitespace s' (idx + 1)) as [s1 i1]. cbn in Hw.
        destruct (expect "]" s1) as [rest|] eqn:Ec.
        - apply expect_size in Ec. cbn. lia.
        - eapply consumes_longer; [apply IHitems; lia | lia]. }
      apply constants_consume.
    + intros depth s idx acc Hfuel. cbn [scan_pairs].
      destruct (expect dq_char s) as [s'|] eqn:Eq; [|exact I].
      apply expect_size in Eq.
      pose proof (scanstring_consumes s' (idx + 1) idx) as Hs.
      destruct (scanstring s' (idx + 1) idx) as [key s1 i1| | |];
        [|exact I|exact I|exact Hs].
      cbn in Hs.
      pose proof (skip_whitespace_size s1 i1) as Hw.
      destruct (skip_whitespace s1 i1) as [s2 i2]. cbn in Hw.
      destruct (expect ":" s2) as [s3|] eqn:Ec; [|exact I].
      apply expect_size in Ec.
      pose proof (skip_whitespace_size s3 (i2 + 1)) as Hw3.
      destruct (skip_whitespace s3 (i2 + 1)) as [s4 i4]. cbn in Hw3.
      assert (Hv : consumes s4 (scan_once fuel depth s4 i4)) by (apply IHonce; lia).
      destruct (scan_once fuel depth s4 i4) as [v s5 i5| | |];
        [|exact I|exact I|exact Hv].
      cbn in Hv.
      pose proof (skip_whitespace_size s5 i5) as Hw5.
      destruct (skip_whitespace s5 i5) as [s6 i6]. cbn in Hw5.
      destruct (expect "}" s6) as [rest|] eqn:Ee.
      { apply expect_size in Ee. cbn. lia. }
      destruct (expect "," s6) as [s7|] eqn:Em; [|exact I].
      apply expect_size in Em.
      pose proof (skip_whitespace_size s7 (i6 + 1)) as Hw7.
      destruct (skip_whitespace s7 (i6 + 1)) as [s8 i8]. cbn in Hw7.
      eapply consumes_longer; [apply IHpairs; lia | lia].
    + intros depth s idx acc Hfuel. cbn [scan_items].
      assert (Hv : consumes s (scan_once fuel depth s idx)) by (apply IHonce; lia).
      destruct (scan_once fuel depth s idx) as [v s1 i1| | |];
        [|exact I|exact I|exact Hv].
      cbn in Hv.
      pose proof (skip_whitespace_size s1 i1) as Hw.
      destruct (skip_whitespace s1 i1) as [s2 i2]. cbn in Hw.
      destruct (expect "]" s2) as [rest|] eqn:Ee.
      { apply expect_size in Ee. cbn. lia. }
      destruct (expect "," s2) as [s3|] eqn:Em; [|exact I].
      apply expect_size in Em.
      pose proof (skip_whitespace_size s3 (i2 + 1)) as Hw3.
      destruct (skip_whitespace s3 (i2 + 1)) as [s4 i4]. cbn in Hw3.
      eapply consumes_longer; [apply IHitems; lia | lia].
Qed.

Lemma scanstring_not_aborted s : forall idx start e, scanstring s idx start <> Aborted e.
Proof.
  assert (Hchar : forall c r e, r <> Aborted e -> cons_char c r <> Aborted e)
    by (intros c r x; destruct r; cbn; congruence).
  assert (Hstr : forall p r e, r <> Aborted e -> cons_str p r <> Aborted e)
    by (intros p r x; destruct r; cbn; congruence).
  assert (H : forall n s idx start e,
             String.length s <= n -> scanstring s idx start <> Aborted e).
  { clear s. induction n as [|n IH]; intros s idx start x Hn.
    - destruct s; [discriminate | cbn in Hn; lia].
    - destruct s as [|c s']; [discriminate|].
      cbn [scanstring].
      destruct (code c =? 34)%Z; [discriminate|].
      destruct (code c =? 92)%Z.
      + destruct s' as [|e r]; [discriminate|].
        destruct (code e =? 117)%Z.
        * destruct r as [|h1 [|h2 [|h3 [|h4 r1]]]]; try discriminate.
          destruct r1 as [|b r1]; [discriminate|].
          destruct (hex4 h1 h2 h3 h4) as [u|]; [|discriminate].
          assert (Hr1 : cons_str (utf8 u) (scanstring (String b r1) (idx + 6) start)
                        <> Aborted x)
            by (apply Hstr, IH; cbn in *; lia).
          destruct r1 as [|u' [|l1 [|l2 [|l3 [|l4 [|y r2]]]]]]; try exact Hr1.
          destruct (is_high_surrogate u); [|exact Hr1].
          destruct (low_surrogate b u' l1 l2 l3 l4) as [[u2|]|];
            [ | exact Hr1 | discriminate].
          apply Hstr, IH; cbn in *; lia.
        * destruct (unescape e); [|discriminate].
          apply Hchar, IH; cbn in *; lia.
      + destruct (code c <=? 31)%Z; [discriminate|].
        apply Hchar, IH; cbn in *; lia. }
  intros idx start e. now apply (H (String.length s)).
Qed.

Lemma match_number_aborts s idx : aborts_on_a_limit (match_number s idx).
Proof.
  unfold match_number.
  destruct (match expect "-" s with Some t => (true, t) | None => (false, s) end)
    as [neg s1].
  destruct (integer_part s1) as [[ip s2]|]; [|exact I].
  destruct (fraction_part s2) as [fp s3].
  destruct (exponent_part s3) as [ep s4].
  destruct fp, ep; try exact I.
  destruct (int_max_str_digits <? len ip)%Z; [|exact I].
  right. reflexivity.
Qed.

Lemma constant_or_number_aborts cs s idx : aborts_on_a_limit (constant_or_number cs s idx).
Proof.
  induction cs as [|[word v] cs IH]; cbn.
  - apply match_number_aborts.
  - destruct (strip_prefix word s); [exact I | exact IH].
Qed.

Lemma scan_aborts fuel :
  (forall depth s idx, aborts_on_a_limit (scan_once fuel depth s idx)) /\
  (forall depth s idx acc, aborts_on_a_limit (scan_pairs fuel depth s idx acc)) /\
  (forall depth s idx acc, aborts_on_a_limit (scan_items fuel depth s idx acc)).
Proof.
  induction fuel as [|fuel (IHonce & IHpairs & IHitems)].
  - repeat split; intros; exact I.
  - repeat split.
    + intros depth s idx. cbn [scan_once].
      destruct (expect dq_char s) as [s'|].
      { pose proof (scanstring_not_aborted s' (idx + 1) idx) as Hs.
        destruct (scanstring s' (idx + 1) idx) as [str rest i|msg i|e|];
          try exact I.
        now destruct (Hs e). }
      destruct (expect "{" s) as [s'|].
      { destruct depth as [|depth]; [left; reflexivity|].
        destruct (skip_whitespace s' (idx + 1)) as [s1 i1].
        destruct (expect "}" s1); [exact I | apply IHpairs]. }
      destruct (expect "[" s) as [s'|].
      { destruct depth as [|depth]; [left; reflexivity|].
        destruct (skip_whitespace s' (idx + 1)) as [s1 i1].
        destruct (expect "]" s1); [exact I | apply IHitems]. }
      apply constant_or_number_aborts.
    + intros depth s idx acc. cbn [scan_pairs].
      destruct (expect dq_char s) as [s'|]; [|exact I].
      pose proof (scanstring_not_aborted s' (idx + 1) idx) as Hs.
      destruct (scanstring s' (idx + 1) idx) as [key s1 i1|msg i|e|];
        [|exact I|now destruct (Hs e)|exact I].
      destruct (skip_whitespace s1 i1) as [s2 i2].
      destruct (expect ":" s2) as [s3|]; [|exact I].
      destruct (skip_whitespace s3 (i2 + 1)) as [s4 i4].
      pose proof (IHonce depth s4 i4) as Hv.
      destruct (scan_once fuel depth s4 i4) as [v s5 i5|msg i|e|];
        [|exact I|exact Hv|exact I].
      destruct (skip_whitespace s5 i5) as [s6 i6].
      destruct (expect "}" s6); [exact I|].
      destruct (expect "," s6) as [s7|]; [|exact I].
      destruct (skip_whitespace s7 (i6 + 1)) as [s8 i8].
      apply IHpairs.
    + intros depth s idx acc. cbn [scan_items].
      pose proof (IHonce depth s idx) as Hv.
      destruct (scan_once fuel depth s idx) as [v s1 i1|msg i|e|];
        [|exact I|exact Hv|exact I].
      destruct (skip_whitespace s1 i1) as [s2 i2].
      destruct (expect "]" s2); [exact I|].
      destruct (expect "," s2) as [s3|]; [|exact I].
      destruct (skip_whitespace s3 (i2 + 1)) as [s4 i4].
      apply IHitems.
Qed.

(** [json.loads] returns a value, or raises a [JSONDecodeError], or is
    ended by one of the two limits of the interpreter, whatever the
    number of recursive calls it has left: the fuel of the scanner is
    out of reach. *)
Lemma loads_within_outcomes depth s :
  (exists v, loads_within depth s = Returned v) \/
  (exists msg, loads_within depth s = Raised (Exn JSONDecodeError msg)) \/
  (exists msg, loads_within depth s = Raised (Exn RecursionError msg)) \/
  (exists msg, loads_within depth s = Raised (Exn ValueError msg)).
Proof.
  unfold loads_within, decode_error.
  destruct (strip_prefix bom s).
  { right; left. destruct (line_col s 0 0 1 None). eauto. }
  pose proof (skip_whitespace_size s 0) as Hw.
  destruct (skip_whitespace s 0) as [s1 i1]. cbn in Hw.
  pose proof (proj1 (scan_consumes (S (2 * String.length s))) depth s1 i1) as Hscan.
  pose proof (proj1 (scan_aborts (S (2 * String.length s))) depth s1 i1) as Habort.
  destruct (scan_once (S (2 * String.length s)) depth s1 i1)
    as [v rest i|msg i|[cls msg]|].
  - destruct (skip_whitespace rest i) as [[|c r] i'].
    + left. eauto.
    + right; left. destruct (line_col s 0 i' 1 None). eauto.
  - right; left. destruct (line_col s 0 i 1 None). eauto.
  - cbn in Habort. destruct Habort as [-> | ->]; eauto 6.
  - exfalso. apply Hscan. lia.
Qed.

Lemma loads_outcomes s :
  (exists v, loads s = Returned v) \/
  (exists msg, loads s = Raised (Exn JSONDecodeError msg)) \/
  (exists msg, loads s = Raised (Exn RecursionError msg)) \/
  (exists msg, loads s = Raised (Exn ValueError msg)).
Proof. apply loads_within_outcomes. Qed.
End DecoderFuel.

(** * The prompt, formatted *)
Section PromptFacts.
Import Py LangChain StatCalculator Prompt.

Lemma format_system (args : gmap string arg) :
  format SYSTEM_TEMPLATE args = Returned system_text.
Proof.
  unfold format.
  let t := eval vm_compute in SYSTEM_TEMPLATE in change SYSTEM_TEMPLATE with t.
  lazy. reflexivity.
Qed.

Lemma format_human um br gs ctx :
  format HUMAN_TEMPLATE (chain_input um br gs ctx) = Returned (human_text um br gs ctx).
Proof.
  unfold format, chain_input, human_text.
  let t := eval vm_compute in HUMAN_TEMPLATE in change HUMAN_TEMPLATE with t.
  lazy -[render Json.dumps context_info String.append pretty].
  reflexivity.
Qed.

Lemma format_prompt um br gs ctx :
  format_messages prompt (chain_input um br gs ctx) = Returned (messages um br gs ctx).
Proof.
  unfold prompt, messages. cbn [format_messages].
  now rewrite format_system, format_human.
Qed.

(** The chain formats the prompt and hands the two messages to the
    chat model: formatting never fails, all five arguments are given. *)
Lemma invoke_chain (model : ChatModel) um br gs ctx :
  invoke (Pipe prompt model) (chain_input um br gs ctx) = model (messages um br gs ctx).
Proof. unfold invoke. cbn [chain_prompt chain_llm]. now rewrite format_prompt. Qed.

End PromptFacts.

(** * The run of [analyze_conversation], case by case *)
Section Analysis.
Import Py LangChain StatCalculator Prompt.

Variable self : StatCalculator.t.
Variables user_message bot_reply : string.
Variable game_state : GameState.
Variable conversation_context : option string.

(** Standard output before the call. *)
Variable out : list string.

Let sent : list message :=
  messages user_message bot_reply game_state conversation_context.

Let run : outcome (gmap string value * value) * list string :=
  analyze_conversation self user_message bot_reply game_state conversation_context out.

Lemma run_oracle_raises e :
  llm self sent = Raised e -> run = absorbed e out.
Proof.
  intros H. subst run sent.
  unfold analyze_conversation, try_except_decode_or_key, absorbed.
  unfold mbind, M_bind, bind, lift. rewrite invoke_chain, H.
  destruct (is_decode_or_key_error e); reflexivity.
Qed.

Section Response.
Variable response : message.
Hypothesis oracle_returns : llm self sent = Returned response.

Lemma run_decoder_raises e :
  Json.loads (content response) = Raised e -> run = absorbed e out.
Proof.
  intros H. subst run sent.
  unfold analyze_conversation, try_except_decode_or_key, absorbed.
  unfold mbind, M_bind, bind, lift. rewrite invoke_chain, oracle_returns, H.
  destruct (is_decode_or_key_error e); reflexivity.
Qed.

Lemma run_decoded result :
  Json.loads (content response) = Returned result ->
  run =
    match get result "stat_changes" (VDict ∅) with
    | Raised e => (Raised e, out)
    | Returned stat_changes =>
        match get result "reason" (VStr ANALYSIS_COMPLETE) with
        | Raised e => (Raised e, out)
        | Returned reason =>
            match nonzero_items stat_changes with
            | Raised e => (Raised e, out)
            | Returned delta => (Returned (delta, reason), out)
            end
        end
    end.
Proof.
  intros H. subst run sent.
  unfold analyze_conversation, try_except_decode_or_key.
  unfold mbind, M_bind, bind, lift, ret.
  rewrite invoke_chain, oracle_returns, H.
  destruct result; cbn [get]; try reflexivity.
  destruct (default (VDict ∅) (d !! "stat_changes")); reflexivity.
Qed.

(** A decoded object whose [stat_changes] is a dictionary (or is
    absent, the default being the empty dictionary). *)
Lemma run_object obj d :
  Json.loads (content response) = Returned (VDict obj) ->
  default (VDict ∅) (obj !! "stat_changes") = VDict d ->
  run = (Returned (filter (fun kv => ne_zero kv.2 = true) d,
                   default (VStr ANALYSIS_COMPLETE) (obj !! "reason")), out).
Proof.
  intros H Hd. rewrite (run_decoded _ H). cbn [get]. rewrite Hd. reflexivity.
Qed.

(** A decoded value that is no dictionary has no [get]. *)
Lemma run_not_object v :
  Json.loads (content response) = Returned v ->
  (forall obj, v <> VDict obj) ->
  run = (Raised (Exn AttributeError
                   ("'" ++ type_name v ++ "' object has no attribute 'get'")), out).
Proof.
  intros H Hv. rewrite (run_decoded _ H).
  destruct v; try reflexivity. now destruct (Hv d).
Qed.

(** A [stat_changes] that is no dictionary has no [items]. *)
Lemma run_stat_changes_not_object obj v :
  Json.loads (content response) = Returned (VDict obj) ->
  obj !! "stat_changes" = Some v ->
  (forall d, v <> VDict d) ->
  run = (Raised (Exn AttributeError
                   ("'" ++ type_name v ++ "' object has no attribute 'items'")), out).
Proof.
  intros H Hs Hv. rewrite (run_decoded _ H). cbn [get]. rewrite Hs. cbn [default].
  destruct v; try reflexivity. now destruct (Hv d).
Qed.

End Response.
End Analysis.

(** * Properties of [analyze_conversation] *)
Section AnalyzeConversation.
Import Py LangChain StatCalculator Prompt.

Implicit Types (self : StatCalculator.t) (um br : string) (gs : GameState).
Implicit Types (ctx : option string) (out : list string) (response : message).

(** C3.  When the response decodes to an object whose [stat_changes]
    is a mapping, the returned delta holds exactly the entries of
    [stat_changes] whose value is not equal to 0, key and value
    unchanged: for integer values, exactly those with a value other
    than 0.  No entry of the delta is 0, and a [stat_changes] made of
    zeros only gives the empty mapping. *)
Theorem delta_is_the_nonzero_entries self um br gs ctx out response obj d :
  llm self (messages um br gs ctx) = Returned response ->
  Json.loads (content response) = Returned (VDict obj) ->
  obj !! "stat_changes" = Some (VDict d) ->
  exists delta reason,
    analyze_conversation self um br gs ctx out = (Returned (delta, reason), out) /\
    (forall k v, delta !! k = Some v <-> d !! k = Some v /\ ne_zero v = true) /\
    (forall k z, delta !! k = Some (VInt z) <-> d !! k = Some (VInt z) /\ z <> 0%Z) /\
    (forall k, delta !! k <> Some (VInt 0)) /\
    ((forall k v, d !! k = Some v -> v = VInt 0) -> delta = ∅).
Proof.
  intros Hllm Hloads Hsc.
  eexists _, _. split.
  { apply (run_object _ _ _ _ _ _ _ Hllm obj d Hloads). now rewrite Hsc. }
  assert (Hall : forall k v,
             filter (fun kv : string * value => ne_zero kv.2 = true) d !! k = Some v
             <-> d !! k = Some v /\ ne_zero v = true).
  { intros k v. apply map_lookup_filter_Some. }
  assert (Hint : forall k z,
             filter (fun kv : string * value => ne_zero kv.2 = true) d !! k
               = Some (VInt z)
             <-> d !! k = Some (VInt z) /\ z <> 0%Z).
  { intros k z. rewrite Hall. cbn [ne_zero].
    rewrite negb_true_iff, Z.eqb_neq. reflexivity. }
  split; [exact Hall|]. split; [exact Hint|]. split.
  - intros k Hk. apply Hint in Hk. now destruct Hk.
  - intros Hzero. apply map_empty. intros k.
    apply map_lookup_filter_None. right. intros v Hv.
    rewrite (Hzero k v Hv). cbn. discriminate.
Qed.

(** C4.  When the response decodes to the structured object, that is
    to an object whose [stat_changes], if there is one, is a mapping:
    without [stat_changes] the delta is the empty mapping; without
    [reason] the reason is the generic one, and no exception is
    raised; without either, the result is the empty mapping with the
    generic reason. *)
Theorem absent_fields_take_defaults self um br gs ctx out response obj :
  llm self (messages um br gs ctx) = Returned response ->
  Json.loads (content response) = Returned (VDict obj) ->
  (obj !! "stat_changes" = None ->
     exists reason,
       analyze_conversation self um br gs ctx out = (Returned (∅, reason), out)) /\
  (obj !! "reason" = None ->
     obj !! "stat_changes" = None \/ (exists d, obj !! "stat_changes" = Some (VDict d)) ->
     exists delta,
       analyze_conversation self um br gs ctx out
         = (Returned (delta, VStr "대화 분석 완료"), out)) /\
  (obj !! "stat_changes" = None -> obj !! "reason" = None ->
     analyze_conversation self um br gs ctx out
       = (Returned (∅, VStr "대화 분석 완료"), out)).
Proof.
  intros Hllm Hloads. repeat split.
  - intros Hsc. eexists.
    rewrite (run_object _ _ _ _ _ _ _ Hllm obj ∅ Hloads) by now rewrite Hsc.
    now rewrite map_filter_empty.
  - intros Hr [Hsc | [d Hsc]]; eexists.
    + rewrite (run_object _ _ _ _ _ _ _ Hllm obj ∅ Hloads) by now rewrite Hsc.
      now rewrite Hr.
    + rewrite (run_object _ _ _ _ _ _ _ Hllm obj d Hloads) by now rewrite Hsc.
      now rewrite Hr.
  - intros Hsc Hr.
    rewrite (run_object _ _ _ _ _ _ _ Hllm obj ∅ Hloads) by now rewrite Hsc.
    now rewrite Hr, map_filter_empty.
Qed.

(** C5, as the code has it.  When the response decodes to an object
    whose [stat_changes] is a mapping, the only test an entry goes
    through is [v != 0]: whatever its key, an integer other than 0 is
    returned as it is, however large; a value that is no integer is
    returned as it is unless it is [False] or a float zero, which
    compare equal to 0; every entry returned is an entry of
    [stat_changes], unchanged; and an entry whose value is the integer
    0, the float 0.0 or -0.0, or [False] is removed. *)
Theorem entries_are_not_validated self um br gs ctx out response obj d :
  llm self (messages um br gs ctx) = Returned response ->
  Json.loads (content response) = Returned (VDict obj) ->
  obj !! "stat_changes" = Some (VDict d) ->
  exists delta reason,
    analyze_conversation self um br gs ctx out = (Returned (delta, reason), out) /\
    (forall k z, d !! k = Some (VInt z) -> z <> 0%Z -> delta !! k = Some (VInt z)) /\
    (forall k v, d !! k = Some v ->
       (forall z, v <> VInt z) -> v <> VBool false ->
       (forall s, v <> VFloat (S754_zero s)) ->
       delta !! k = Some v) /\
    (forall k v, delta !! k = Some v -> d !! k = Some v) /\
    (forall k v, d !! k = Some v ->
       v = VInt 0 \/ v = VFloat (S754_zero false) \/ v = VFloat (S754_zero true) \/
       v = VBool false ->
       delta !! k = None) /\
    (forall k v, delta !! k = Some v <->
       d !! k = Some v /\ v <> VInt 0 /\ v <> VFloat (S754_zero false) /\
       v <> VFloat (S754_zero true) /\ v <> VBool false).
Proof.
  intros Hllm Hloads Hsc.
  eexists _, _. split.
  { apply (run_object _ _ _ _ _ _ _ Hllm obj d Hloads). now rewrite Hsc. }
  assert (Hzero : forall v,
             ne_zero v = true <->
             v <> VInt 0 /\ v <> VFloat (S754_zero false) /\
             v <> VFloat (S754_zero true) /\ v <> VBool false).
  { intros v. destruct v as [ | [] | z | [ [] | | | ] | | | ]; cbn;
      try (split; [intros _; repeat split; discriminate | reflexivity]);
      try (split; [discriminate | intros (? & ? & ? & ?); congruence]).
    rewrite negb_true_iff, Z.eqb_neq. split.
    - intros Hz. repeat split; congruence.
    - intros (Hz & _) ->. now destruct Hz. }
  repeat match goal with |- _ /\ _ => split end.
  - intros k z Hk Hz. apply map_lookup_filter_Some. split; [assumption|].
    cbn. now rewrite negb_true_iff, Z.eqb_neq.
  - intros k v Hk Hint Hfalse Hfloat. apply map_lookup_filter_Some.
    split; [assumption|]. cbn [snd]. apply Hzero.
    repeat split; [apply Hint | apply Hfloat | apply Hfloat | exact Hfalse].
  - intros k v Hk. now apply map_lookup_filter_Some in Hk.
  - intros k v Hk Hv. apply map_lookup_filter_None. right.
    intros v' Hk'. rewrite Hk in Hk'. injection Hk' as <-. cbn [snd].
    rewrite Hzero. intros (H1 & H2 & H3 & H4).
    destruct Hv as [Hv | [Hv | [Hv | Hv]]]; congruence.
  - intros k v. rewrite map_lookup_filter_Some. cbn [snd]. now rewrite Hzero.
Qed.

End AnalyzeConversation.

(** * The scenarios, run *)
Section Runs.
Import Py LangChain StatCalculator Prompt Scenario.

(** C1 fails on the response [[]].  The text decodes, to a list; a
    list has no [get], and the [AttributeError] is none of the two
    classes the [except] clause names: it leaves
    [analyze_conversation], which has printed nothing. *)
Lemma analyze_conversation_raises_on_json_array :
  Json.loads "[]" = Returned (VList []) /\
  analyze_conversation (replying "[]") praise thanks month3 None []
    = (Raised (Exn AttributeError "'list' object has no attribute 'get'"), []).
Proof. split; vm_compute; reflexivity. Qed.

Lemma delta_is_the_nonzero_entries_witness :
  exists delta reason,
    analyze_conversation (replying zeros_only) praise thanks month3 None []
      = (Returned (delta, reason), []) /\
    delta = ∅.
Proof.
  destruct (delta_is_the_nonzero_entries
              (replying zeros_only) praise thanks month3 None []
              (Message ai zeros_only)
              (<["stat_changes" :=
                   VDict (<["intimacy" := VInt 0]> (<["mental" := VInt 0]> ∅))]> ∅)
              (<["intimacy" := VInt 0]> (<["mental" := VInt 0]> ∅)))
    as (delta & reason & Hrun & _ & _ & _ & Hzeros).
  - reflexivity.
  - vm_compute; reflexivity.
  - vm_compute; reflexivity.
  - exists delta, reason. split; [exact Hrun|].
    apply Hzeros. intros k v.
    rewrite !lookup_insert. repeat case_decide; try congruence.
    rewrite lookup_empty. discriminate.
Defined.

(** C2 fails on the response [{"stat_changes": 7}].  The text is
    valid JSON and decodes to an object, but not to the object that is
    expected: 7 has no [items].  The [AttributeError] is not absorbed:
    no warning is printed, and no fallback pair is returned. *)
Lemma wrong_shape_is_not_absorbed :
  Json.loads stat_changes_is_a_number
    = Returned (VDict (<["stat_changes" := VInt 7]> ∅)) /\
  analyze_conversation (replying stat_changes_is_a_number) praise thanks month3 None []
    = (Raised (Exn AttributeError "'int' object has no attribute 'items'"), []).
Proof. split; vm_compute; reflexivity. Qed.

Lemma absent_fields_take_defaults_witness :
  Json.loads reason_only = Returned (VDict (<["reason" := VStr "Small talk"]> ∅)) /\
  exists reason,
    analyze_conversation (replying reason_only) praise thanks month3 None []
      = (Returned (∅, reason), []).
Proof.
  split; [vm_compute; reflexivity|].
  apply (absent_fields_take_defaults
           (replying reason_only) praise thanks month3 None []
           (Message ai reason_only) (<["reason" := VStr "Small talk"]> ∅)).
  - reflexivity.
  - vm_compute; reflexivity.
  - vm_compute; reflexivity.
Defined.

(** In [{"stat_changes":{"power":0.0,"speed":false,"stamina":-0.0}}]
    no value is an integer, and no entry comes back: the three values
    compare equal to 0. *)
Lemma float_zero_and_false_are_dropped :
  Json.loads float_zero_and_false
    = Returned (VDict (<["stat_changes" :=
                          VDict (<["power" := VFloat (S754_zero false)]>
                                   (<["speed" := VBool false]>
                                      (<["stamina" := VFloat (S754_zero true)]> ∅)))]> ∅)) /\
  analyze_conversation (replying float_zero_and_false) praise thanks month3 None []
    = (Returned (∅, VStr "대화 분석 완료"), []).
Proof. split; vm_compute; reflexivity. Qed.

Lemma entries_are_not_validated_witness :
  exists delta reason,
    analyze_conversation (replying loose) praise thanks month3 None []
      = (Returned (delta, reason), []) /\
    delta !! "luck" = Some (VInt 1000) /\
    delta !! "mental" = Some (VStr "5") /\
    delta !! "power" = Some (VFloat (S754_finite false 5629499534213120 (-51))) /\
    delta !! "speed" = Some VNone /\
    delta !! "stamina" = None.
Proof.
  pose (d := (<["luck" := VInt 1000]> (<["mental" := VStr "5"]>
               (<["power" := VFloat (S754_finite false 5629499534213120 (-51))]>
                 (<["speed" := VNone]> (<["stamina" := VInt 0]> ∅))))
              : gmap string value)).
  destruct (entries_are_not_validated
              (replying loose) praise thanks month3 None []
              (Message ai loose) (<["stat_changes" := VDict d]> ∅) d)
    as (delta & reason & Hrun & Hint & Hother & _ & Hzero & _).
  - reflexivity.
  - vm_compute; reflexivity.
  - vm_compute; reflexivity.
  - exists delta, reason. split; [exact Hrun|].
    repeat match goal with |- _ /\ _ => split end.
    + apply Hint; [vm_compute; reflexivity | discriminate].
    + apply Hother; [vm_compute; reflexivity | discriminate..].
    + apply Hother; [vm_compute; reflexivity | discriminate..].
    + apply Hother; [vm_compute; reflexivity | discriminate..].
    + apply (Hzero _ (VInt 0)); [vm_compute; reflexivity | now left].
Defined.

(** C8.  Month 3, the five stats at 30, 50, 60, 40 and 45, the coach's
    praise and the player's thanks, the oracle stubbed to reply
    [{"stat_changes":{"intimacy":5,"mental":3,"stamina":0},"reason":"Positive encouragement"}]:
    the call returns intimacy 5 and mental 3 with the oracle's reason,
    and prints nothing. *)
Theorem encouragement_scenario (out : list string) :
  analyze_conversation (replying encouraged) praise thanks month3 None out
    = (Returned (<["intimacy" := VInt 5]> (<["mental" := VInt 3]> ∅),
                 VStr "Positive encouragement"), out).
Proof.
  pose (d := (<["intimacy" := VInt 5]> (<["mental" := VInt 3]>
               (<["stamina" := VInt 0]> ∅)) : gmap string value)).
  rewrite (run_object (replying encouraged) praise thanks month3 None out
             (Message ai encouraged) eq_refl
             (<["stat_changes" := VDict d]>
                (<["reason" := VStr "Positive encouragement"]> ∅)) d).
  - vm_compute. reflexivity.
  - vm_compute; reflexivity.
  - vm_compute; reflexivity.
Qed.

End Runs.

(** * The optional context *)
Section Context.
Import Py LangChain StatCalculator Prompt.

(** C10.  The empty string as [conversation_context] is the same as no
    context: the context argument of the chain is the empty string in
    both cases, the two messages handed to the chat model are the
    same, the per-call instruction has nothing between the two
    utterances and the closing request, and the whole call behaves the
    same.  (A context that is not empty does put its block there.) *)
Theorem empty_context_is_no_context
    (self : StatCalculator.t) (um br : string) (gs : GameState) (out : list string) :
  context_info (Some EmptyString) = EmptyString /\
  context_info None = EmptyString /\
  chain_input um br gs (Some EmptyString) !! "context_info" = Some (AStr EmptyString) /\
  chain_input um br gs (Some EmptyString) = chain_input um br gs None /\
  invoke (Pipe prompt (llm self)) (chain_input um br gs (Some EmptyString))
    = llm self
        [ Message system system_text;
          Message human
            ("[현재 게임 상태]" ++ nl ++
             "- 현재 시점: " ++ pretty (current_month gs) ++ "월" ++ nl ++
             "- 현재 스탯: " ++ Json.dumps (current_stats gs) ++ nl ++
             nl ++
             "[이번 대화]" ++ nl ++
             "코치(사용자): " ++ um ++ nl ++
             "민석(AI): " ++ br ++ nl ++
             nl ++
             nl ++
             nl ++
             "이 대화가 민석의 스탯에 미치는 영향을 분석해주세요.") ] /\
  invoke (Pipe prompt (llm self)) (chain_input um br gs (Some EmptyString))
    = invoke (Pipe prompt (llm self)) (chain_input um br gs None) /\
  analyze_conversation self um br gs (Some EmptyString) out
    = analyze_conversation self um br gs None out /\
  (forall c s, context_info (Some (String c s)) = "[대화 맥락]" ++ nl ++ String c s).
Proof.
  repeat match goal with |- _ /\ _ => split end.
  5: { rewrite invoke_chain. reflexivity. }
  all: reflexivity.
Qed.

End Context.

(** * The rule tables *)
Section RuleTables.
Import StatCalculator.

Implicit Types (self : StatCalculator.t) (gs : GameState).

(** C6.  [get_intimacy_level] is defined on every integer and cuts the
    integers into five bands at 20, 40, 60 and 80, each band inclusive
    at its lower bound: below 20 the lowest descriptor, from 80 on the
    highest.  The descriptor returned is the one whose rank is the
    band of the score, and the band never decreases as the score
    grows. *)
Theorem get_intimacy_level_bands self (score : Z) :
  ((score < 20)%Z ->
     get_intimacy_level self score = "매우 낮음 - 거의 대화하지 않으려 함") /\
  ((20 <= score < 40)%Z ->
     get_intimacy_level self score = "낮음 - 방어적이고 거리를 둠") /\
  ((40 <= score < 60)%Z ->
     get_intimacy_level self score = "보통 - 조금씩 마음을 열기 시작") /\
  ((60 <= score < 80)%Z ->
     get_intimacy_level self score = "높음 - 신뢰하고 협조적") /\
  ((80 <= score)%Z ->
     get_intimacy_level self score = "매우 높음 - 진심으로 존경하고 따름") /\
  Tiers.rank (get_intimacy_level self score) = Some (Tiers.band score) /\
  (forall higher, (score <= higher)%Z -> Tiers.band score <= Tiers.band higher).
Proof.
  unfold get_intimacy_level, Tiers.band, Tiers.thresholds.
  repeat split.
  1-5: intros H;
    repeat match goal with
           | |- context [(?a <? ?b)%Z] => destruct (Z.ltb_spec a b); try lia
           end; reflexivity.
  - cbn [filter list_filter].
    repeat match goal with
           | |- context [(?a <? ?b)%Z] => destruct (Z.ltb_spec a b); try lia
           end;
    repeat case_decide;
    repeat match goal with
           | H : (_ <=? _)%Z = true |- _ => apply Z.leb_le in H
           | H : ¬ (_ <=? _)%Z = true |- _ =>
               apply not_true_is_false, Z.leb_gt in H
           end; try lia; reflexivity.
  - intros higher Hle. cbn [filter list_filter].
    repeat case_decide;
    repeat match goal with
           | H : (_ <=? _)%Z = true |- _ => apply Z.leb_le in H
           | H : ¬ (_ <=? _)%Z = true |- _ =>
               apply not_true_is_false, Z.leb_gt in H
           end; cbn [length]; lia.
Qed.

(** C7.  The strength training type, 근력, gives power +5 and stamina
    -2; a type outside the five of the table, such as [unknown-type],
    gives the empty mapping. *)
Theorem calculate_training_bonus_table self gs :
  calculate_training_bonus self "근력" gs
    = <["power" := 5%Z]> (<["stamina" := (-2)%Z]> ∅) /\
  calculate_training_bonus self "unknown-type" gs = ∅ /\
  (forall training_type,
      training_type ∉ ["체력"; "근력"; "주루"; "타격"; "멘탈"] ->
      calculate_training_bonus self training_type gs = ∅).
Proof.
  repeat split; try (vm_compute; reflexivity).
  intros training_type Hout.
  rewrite !not_elem_of_cons in Hout.
  destruct Hout as (H1 & H2 & H3 & H4 & H5 & _).
  unfold calculate_training_bonus, training_effects.
  now rewrite !lookup_insert_ne, lookup_empty by congruence.
Qed.

(** C9.  [calculate_training_bonus] never looks at the game state: two
    calls with the same training type return the same mapping,
    whatever the two game states. *)
Theorem calculate_training_bonus_ignores_game_state self training_type gs1 gs2 :
  calculate_training_bonus self training_type gs1
    = calculate_training_bonus self training_type gs2.
Proof. reflexivity. Qed.

Lemma get_intimacy_level_bands_witness :
  (20 <= 20 < 40)%Z /\
  get_intimacy_level (Scenario.replying EmptyString) 20 = "낮음 - 방어적이고 거리를 둠".
Proof.
  split; [lia|].
  apply (get_intimacy_level_bands (Scenario.replying EmptyString) 20). lia.
Defined.

Lemma calculate_training_bonus_table_witness :
  ("unknown-type" ∉ ["체력"; "근력"; "주루"; "타격"; "멘탈"]) /\
  calculate_training_bonus (Scenario.replying EmptyString) "unknown-type"
    Scenario.month3 = ∅.
Proof.
  assert (H : "unknown-type" ∉ ["체력"; "근력"; "주루"; "타격"; "멘탈"]).
  { rewrite !not_elem_of_cons. repeat split; try discriminate. apply not_elem_of_nil. }
  split; [exact H|].
  apply (calculate_training_bonus_table (Scenario.replying EmptyString)
           Scenario.month3). exact H.
Defined.

End RuleTables.

(** * [json.loads] after [json.dumps] *)
Section RoundTrip.
Import Py Json.

(** The decimal digits of a natural number, most significant first
    (none for 0). *)
Local Abbreviation numeral x := (pretty_N_go x EmptyString).

Lemma append_cons (x : ascii) (a b : string) : String x a ++ b = String x (a ++ b).
Proof. reflexivity. Qed.

Lemma append_empty (b : string) : EmptyString ++ b = b.
Proof. reflexivity. Qed.

Lemma append_assoc (a b c : string) : (a ++ b) ++ c = a ++ (b ++ c).
Proof.
  induction a as [|x a IH]; [reflexivity|].
  rewrite !append_cons. now f_equal.
Qed.

Lemma pretty_N_go_app x : forall s, pretty_N_go x s = numeral x ++ s.
Proof.
  induction (N.lt_wf_0 x) as [x _ IH]; intros s.
  destruct (decide (0 < x)%N) as [Hpos|Hzero].
  - assert (Hlt : (x `div` 10 < x)%N) by now apply N.div_lt.
    rewrite (pretty_N_go_step x s), (pretty_N_go_step x EmptyString) by assumption.
    rewrite (IH _ Hlt (String _ s)), (IH _ Hlt (String _ EmptyString)).
    now rewrite append_assoc.
  - assert (x = 0%N) as -> by lia. reflexivity.
Qed.

Lemma numeral_step x :
  (0 < x)%N ->
  numeral x = numeral (x `div` 10)%N ++ String (pretty_N_char (x `mod` 10)) EmptyString.
Proof. intros H. now rewrite pretty_N_go_step, pretty_N_go_app by assumption. Qed.

Lemma pretty_N_char_digit d :
  (d < 10)%N ->
  is_digit (pretty_N_char d) = true /\ code (pretty_N_char d) = (48 + Z.of_N d)%Z.
Proof.
  intros H.
  assert (d = 0 \/ d = 1 \/ d = 2 \/ d = 3 \/ d = 4 \/ d = 5 \/ d = 6 \/ d = 7
          \/ d = 8 \/ d = 9)%N as Hd by lia.
  repeat destruct Hd as [-> | Hd]; try subst d; split; reflexivity.
Qed.

Lemma digits_numeral x : forall r,
  digits (numeral x ++ r) = (numeral x ++ (digits r).1, (digits r).2).
Proof.
  induction (N.lt_wf_0 x) as [x _ IH]; intros r.
  destruct (decide (0 < x)%N) as [Hpos|Hzero].
  - rewrite numeral_step by assumption.
    rewrite !append_assoc, append_cons, append_empty.
    rewrite IH by now apply N.div_lt.
    cbn [digits].
    destruct (pretty_N_char_digit (x `mod` 10)%N) as [-> _];
      [now apply N.mod_lt|].
    now destruct (digits r).
  - assert (x = 0%N) as -> by lia.
    rewrite pretty_N_go_0, !append_empty. now destruct (digits r).
Qed.

Lemma int_of_digits_app ds r : forall acc,
  int_of_digits acc (ds ++ r) = int_of_digits (int_of_digits acc ds) r.
Proof. induction ds as [|c ds IH]; intros acc; cbn; [reflexivity | apply IH]. Qed.

Lemma int_of_numeral x : int_of_digits 0 (numeral x) = Z.of_N x.
Proof.
  induction (N.lt_wf_0 x) as [x _ IH].
  destruct (decide (0 < x)%N) as [Hpos|Hzero].
  - rewrite numeral_step, int_of_digits_app by assumption.
    rewrite IH by now apply N.div_lt. cbn [int_of_digits].
    destruct (pretty_N_char_digit (x `mod` 10)%N) as [_ ->];
      [now apply N.mod_lt|].
    rewrite (N.div_mod x 10) at 3 by lia. lia.
  - assert (x = 0%N) as -> by lia. reflexivity.
Qed.

(** The numeral of a positive number starts with a digit from 1 to 9. *)
Lemma numeral_head x :
  (0 < x)%N ->
  exists c t, numeral x = String c t /\
    In c ["1"; "2"; "3"; "4"; "5"; "6"; "7"; "8"; "9"]%char.
Proof.
  induction (N.lt_wf_0 x) as [x _ IH]; intros Hpos.
  rewrite numeral_step by assumption.
  destruct (decide (0 < x `div` 10)%N) as [Hdiv|Hdiv].
  - destruct (IH (x `div` 10)%N) as (c & t & -> & Hc);
      [now apply N.div_lt | assumption |].
    rewrite append_cons. eauto.
  - assert (x `div` 10 = 0)%N as Hzero
      by (destruct (x `div` 10)%N; [reflexivity | now destruct Hdiv]).
    rewrite Hzero, pretty_N_go_0, append_empty.
    assert (x < 10)%N by (apply N.div_small_iff in Hzero; lia).
    rewrite N.mod_small by assumption.
    eexists _, _. split; [reflexivity|].
    assert (x = 1 \/ x = 2 \/ x = 3 \/ x = 4 \/ x = 5 \/ x = 6 \/ x = 7
            \/ x = 8 \/ x = 9)%N as Hx by lia.
    repeat destruct Hx as [-> | Hx]; try subst x; cbn; tauto.
Qed.

Lemma append_empty_r (a : string) : a ++ EmptyString = a.
Proof. induction a as [|x a IH]; [reflexivity | rewrite append_cons; now f_equal]. Qed.

Lemma length_append (a b : string) :
  String.length (a ++ b) = String.length a + String.length b.
Proof.
  induction a as [|x a IH]; [reflexivity|].
  rewrite append_cons. cbn [String.length]. now rewrite IH.
Qed.

(** [str(z)]: "0", the numeral of a positive number, or a minus sign
    and the numeral. *)
Lemma pretty_Z_cases (z : Z) :
  (z = 0%Z /\ pretty z = "0") \/
  (exists x, (0 < x)%N /\ z = Z.of_N x /\ pretty z = numeral x) \/
  (exists x, (0 < x)%N /\ z = (- Z.of_N x)%Z /\
             pretty z = String "-" (numeral x)).
Proof.
  destruct z as [|p|p].
  - left. split; reflexivity.
  - right; left. exists (N.pos p). repeat split; lia.
  - right; right. exists (N.pos p). repeat split; lia.
Qed.

Lemma pretty_starts_number (z : Z) rest : starts_number (pretty z ++ rest).
Proof.
  destruct (pretty_Z_cases z) as [[_ ->] | [(x & Hx & _ & ->) | (x & Hx & _ & ->)]].
  - left. eexists _, _. split; [reflexivity | cbn; tauto].
  - destruct (numeral_head x Hx) as (c & t & -> & Hc).
    left. eexists _, _. split; [reflexivity | cbn in *; tauto].
  - destruct (numeral_head x Hx) as (c & t & -> & Hc).
    right. eexists _, _. split; [reflexivity | cbn in *; tauto].
Qed.

Ltac each_digit H :=
  cbn [In] in H;
  repeat (destruct H as [<- | H]); [.. | destruct H].

Lemma scan_once_number fuel depth s idx :
  starts_number s -> scan_once (S fuel) depth s idx = match_number s idx.
Proof.
  intros [(c & tl & -> & Hc) | (c & tl & -> & Hc)]; each_digit Hc; reflexivity.
Qed.

Lemma skip_whitespace_number s idx :
  starts_number s -> skip_whitespace s idx = (s, idx).
Proof.
  intros [(c & tl & -> & Hc) | (c & tl & -> & Hc)]; [each_digit Hc|]; reflexivity.
Qed.

Lemma integer_part_numeral x rest :
  (0 < x)%N -> ends_number rest ->
  integer_part (numeral x ++ rest) = Some (numeral x, rest).
Proof.
  intros Hx [tl Hrest]. unfold integer_part.
  rewrite digits_numeral.
  assert (digits rest = (EmptyString, rest)) as -> by (destruct Hrest; now subst).
  cbn [fst snd]. rewrite append_empty_r.
  destruct (numeral_head x Hx) as (c & t & Hhead & Hc).
  assert (expect "0" (numeral x ++ rest) = None) as ->.
  { rewrite Hhead, append_cons.
    cbn [In] in Hc. repeat (destruct Hc as [<- | Hc]); try reflexivity. destruct Hc. }
  rewrite Hhead. reflexivity.
Qed.

(** The number of digits of a numeral that [int(text)] accepts. *)
Lemma numeral_within_limit (z : Z) x :
  (0 < x)%N -> Z.abs z = Z.of_N x ->
  (decimal_digits z <= int_max_str_digits)%Z ->
  (int_max_str_digits <? len (numeral x))%Z = false.
Proof.
  intros Hx Habs. unfold decimal_digits. rewrite Habs.
  destruct (pretty_Z_cases (Z.of_N x))
    as [[Hz _] | [(y & _ & Hy & ->) | (y & Hy & Hneg & _)]]; [lia | | lia].
  apply N2Z.inj in Hy as <-. intros H. now apply Z.ltb_ge.
Qed.

Lemma match_number_pretty (z : Z) rest idx :
  ends_number rest ->
  (decimal_digits z <= int_max_str_digits)%Z ->
  exists j, match_number (pretty z ++ rest) idx = Scanned (VInt z) rest j.
Proof.
  intros Hrest Hlimit.
  assert (Hfrac : fraction_part rest = (None, rest)).
  { destruct Hrest as [tl [-> | ->]]; reflexivity. }
  assert (Hexp : exponent_part rest = (None, rest)).
  { destruct Hrest as [tl [-> | ->]]; reflexivity. }
  destruct (pretty_Z_cases z) as [[-> ->] | [(x & Hx & Hz & ->) | (x & Hx & Hz & ->)]].
  - unfold match_number. rewrite append_cons, append_empty.
    cbn [expect Ascii.eqb Bool.eqb]. unfold integer_part. cbn [expect Ascii.eqb Bool.eqb].
    rewrite Hfrac, Hexp. eexists. reflexivity.
  - unfold match_number.
    assert (expect "-" (numeral x ++ rest) = None) as ->.
    { destruct (numeral_head x Hx) as (c & t & -> & Hc). rewrite append_cons.
      cbn [In] in Hc. repeat (destruct Hc as [<- | Hc]); try reflexivity. destruct Hc. }
    rewrite integer_part_numeral, Hfrac, Hexp by assumption.
    rewrite (numeral_within_limit z x) by (assumption || lia).
    rewrite int_of_numeral. subst z. eexists. reflexivity.
  - unfold match_number. rewrite append_cons.
    cbn [expect Ascii.eqb Bool.eqb].
    rewrite integer_part_numeral, Hfrac, Hexp by assumption.
    rewrite (numeral_within_limit z x) by (assumption || lia).
    rewrite int_of_numeral. subst z. eexists. reflexivity.
Qed.

Lemma scan_once_pretty fuel depth (z : Z) rest idx :
  ends_number rest ->
  (decimal_digits z <= int_max_str_digits)%Z ->
  exists j, scan_once (S fuel) depth (pretty z ++ rest) idx = Scanned (VInt z) rest j.
Proof.
  intros Hrest Hlimit. rewrite scan_once_number by apply pretty_starts_number.
  now apply match_number_pretty.
Qed.

Lemma append_nonempty (a : string) c b : a ++ String c b <> EmptyString.
Proof. now destruct a. Qed.

(** A [\u] escape of a code point that is no high surrogate, in a text
    that goes on after it. *)
Lemma scanstring_u_escape h1 h2 h3 h4 u r idx start :
  hex4 h1 h2 h3 h4 = Some u ->
  is_high_surrogate u = false ->
  r <> EmptyString ->
  scanstring (String "\" (String "u" (String h1 (String h2 (String h3 (String h4 r))))))
    idx start
  = cons_str (utf8 u) (scanstring r (idx + 6) start).
Proof.
  intros Hhex Hhigh Hr. destruct r as [|b r]; [congruence|]. cbn [scanstring].
  change (code "\" =? 34)%Z with false. change (code "\" =? 92)%Z with true.
  change (code "u" =? 117)%Z with true. cbv iota. rewrite Hhex.
  destruct r as [|u' [|l1 [|l2 [|l3 [|l4 [|x r2]]]]]]; rewrite ?Hhigh; reflexivity.
Qed.

(** [scanstring] reads back the string that [escape] has written. *)
Lemma scanstring_escape k rest : forall idx start,
  exists j, scanstring (escape k ++ String dq_char rest) idx start = Scanned k rest j.
Proof.
  induction k as [|c k IH]; intros idx start.
  - eexists. reflexivity.
  - cbn [escape]. rewrite append_assoc.
    destruct c as [[] [] [] [] [] [] [] []];
      match goal with
      | |- context [escape_char ?c] =>
          let e := eval vm_compute in (escape_char c) in
          change (escape_char c) with e
      end;
      rewrite !append_cons, append_empty;
      first [ erewrite scanstring_u_escape
                by first [reflexivity | apply append_nonempty]
            | cbn [scanstring]; cbv -[scanstring escape String.append Z.add dq_char] ];
      match goal with
      | |- context [scanstring (escape k ++ _) ?i ?s] =>
          destruct (IH i s) as [j ->]
      end;
      eexists; reflexivity.
Qed.

Lemma expect_head c s : expect c (String c s) = Some s.
Proof. cbn [expect]. now rewrite Ascii.eqb_refl. Qed.

Lemma skip_whitespace_head c s idx :
  is_whitespace c = false -> skip_whitespace (String c s) idx = (String c s, idx).
Proof. intros H. cbn [skip_whitespace]. now rewrite H. Qed.

Lemma skip_whitespace_space s idx :
  skip_whitespace (String " " s) idx = skip_whitespace s (idx + 1).
Proof. reflexivity. Qed.

(** One step of the loop over the pairs of an object. *)
Lemma scan_pairs_step fuel depth s idx acc :
  scan_pairs (S fuel) depth s idx acc =
    match expect dq_char s with
    | None => Failed "Expecting property name enclosed in double quotes" idx
    | Some s' =>
        match scanstring s' (idx + 1) idx with
        | Failed msg i => Failed msg i
        | Aborted e => Aborted e
        | OutOfFuel => OutOfFuel
        | Scanned key s1 i1 =>
            let '(s2, i2) := skip_whitespace s1 i1 in
            match expect ":" s2 with
            | None => Failed "Expecting ':' delimiter" i2
            | Some s3 =>
                let '(s4, i4) := skip_whitespace s3 (i2 + 1) in
                match scan_once fuel depth s4 i4 with
                | Failed msg i => Failed msg i
                | Aborted e => Aborted e
                | OutOfFuel => OutOfFuel
                | Scanned v s5 i5 =>
                    let acc' := <[key := v]> acc in
                    let '(s6, i6) := skip_whitespace s5 i5 in
                    match expect "}" s6 with
                    | Some rest => Scanned (VDict acc') rest (i6 + 1)
                    | None =>
                        match expect "," s6 with
                        | Some s7 =>
                            let '(s8, i8) := skip_whitespace s7 (i6 + 1) in
                            scan_pairs fuel depth s8 i8 acc'
                        | None => Failed "Expecting ',' delimiter" i6
                        end
                    end
                end
            end
        end
    end.
Proof. reflexivity. Qed.

(** The items as [dumps] writes them, followed by [tail]. *)
Lemma dumps_items_cons k (v : Z) items tail :
  dumps_items ((k, v) :: items) ++ tail =
    String dq_char (escape k ++ String dq_char (String ":" (String " "
      (pretty v ++
         match items with
         | [] => tail
         | _ => String "," (String " " (dumps_items items ++ tail))
         end)))).
Proof.
  destruct items as [|[k2 v2] items]; cbn [dumps_items]; unfold dumps_str, dq;
    now rewrite ?append_assoc, ?append_cons, ?append_empty, ?append_assoc,
                ?append_cons, ?append_empty, ?append_assoc, ?append_cons,
                ?append_empty.
Qed.

Lemma skip_whitespace_items items tail idx :
  items <> [] ->
  skip_whitespace (dumps_items items ++ tail) idx = (dumps_items items ++ tail, idx).
Proof.
  destruct items as [|[k v] items]; [congruence|]. intros _.
  rewrite dumps_items_cons. now apply skip_whitespace_head.
Qed.

Lemma expect_brace_items items tail :
  items <> [] -> expect "}" (dumps_items items ++ tail) = None.
Proof.
  destruct items as [|[k v] items]; [congruence|]. intros _.
  rewrite dumps_items_cons. reflexivity.
Qed.

(** The dictionary the items build, the later of two equal keys
    winning. *)
Local Abbreviation built acc items :=
  (foldl (fun (m : gmap string value) (kv : string * Z) => <[kv.1 := VInt kv.2]> m)
         acc items).

(** Integers that [int(text)] reads back: none has more digits than
    the limit. *)
Local Abbreviation within_limit items :=
  (Forall (fun kv : string * Z =>
             (decimal_digits kv.2 <= int_max_str_digits)%Z) items).

Lemma scan_pairs_items depth items : forall fuel idx acc rest,
  items <> [] -> length items < fuel -> within_limit items ->
  exists j,
    scan_pairs fuel depth (dumps_items items ++ String "}" rest) idx acc
      = Scanned (VDict (built acc items)) rest j.
Proof.
  induction items as [|[k v] items IH]; intros fuel idx acc rest Hne Hfuel Hlim;
    [congruence|].
  destruct fuel as [|fuel]; [cbn in Hfuel; lia|].
  cbn [length] in Hfuel.
  apply Forall_cons in Hlim as [Hv Hlim]. cbn [snd] in Hv.
  rewrite dumps_items_cons, scan_pairs_step, expect_head.
  destruct (scanstring_escape k
              (String ":" (String " "
                 (pretty v ++
                    match items with
                    | [] => String "}" rest
                    | _ => String "," (String " " (dumps_items items ++ String "}" rest))
                    end))) (idx + 1)%Z idx) as [j1 ->].
  rewrite skip_whitespace_head by reflexivity.
  rewrite expect_head, skip_whitespace_space.
  rewrite skip_whitespace_number by apply pretty_starts_number.
  destruct fuel as [|fuel']; [lia|].
  destruct items as [|item items].
  - destruct (scan_once_pretty fuel' depth v (String "}" rest) (j1 + 1 + 1)%Z)
      as [j2 ->]; [now exists rest; right | exact Hv |].
    rewrite skip_whitespace_head by reflexivity.
    rewrite expect_head. eexists. reflexivity.
  - destruct (scan_once_pretty fuel' depth v
                (String "," (String " " (dumps_items (item :: items) ++ String "}" rest)))
                (j1 + 1 + 1)%Z) as [j2 ->];
      [eexists; now left | exact Hv |].
    rewrite skip_whitespace_head by reflexivity.
    change (expect "}" (String "," ?s)) with (@None string).
    rewrite expect_head, skip_whitespace_space.
    rewrite skip_whitespace_items by discriminate.
    apply IH; [discriminate | cbn [length] in *; lia | exact Hlim].
Qed.

Lemma dumps_items_length (items : list (string * Z)) :
  length items <= String.length (dumps_items items).
Proof.
  induction items as [|[k v] items IH]; [cbn; lia|].
  rewrite <- (append_empty_r (dumps_items _)), dumps_items_cons.
  cbn [String.length length]. rewrite !length_append.
  destruct items as [|item items]; cbn [String.length length] in *;
    rewrite ?length_append, ?append_empty_r; cbn [String.length]; lia.
Qed.

(** [json.loads] reads back what [json.dumps] has written, when no
    integer has more digits than [int(text)] takes: one recursive call
    is all the scanner needs. *)
Lemma loads_within_dumps depth (items : list (string * Z)) :
  within_limit items ->
  loads_within (S depth) (dumps items) = Returned (VDict (built ∅ items)).
Proof.
  intros Hlim.
  destruct items as [|item items]; [reflexivity|].
  unfold loads_within, dumps.
  pose proof (dumps_items_length (item :: items)) as Hlen.
  rewrite append_cons, append_empty in *.
  set (body := dumps_items (item :: items)) in *.
  change (strip_prefix bom (String "{" (body ++ "}"))) with (@None string).
  rewrite skip_whitespace_head by reflexivity.
  change (scan_once (S ?f) (S ?d) (String "{" ?s) ?i)
    with (let '(s1, i1) := skip_whitespace s (i + 1) in
          match expect "}" s1 with
          | Some rest => Scanned (VDict ∅) rest (i1 + 1)
          | None => scan_pairs f d s1 i1 ∅
          end).
  subst body.
  rewrite skip_whitespace_items, expect_brace_items by discriminate.
  destruct (scan_pairs_items depth (item :: items)
              (2 * String.length (String "{" (dumps_items (item :: items) ++ "}")))
              (0 + 1)%Z ∅ EmptyString) as [j ->].
  - discriminate.
  - cbn [String.length]. rewrite length_append. lia.
  - exact Hlim.
  - reflexivity.
Qed.

Lemma loads_dumps (items : list (string * Z)) :
  within_limit items ->
  loads (dumps items) = Returned (VDict (built ∅ items)).
Proof. apply loads_within_dumps. Qed.
End RoundTrip.

(** * Further properties of [analyze_conversation] *)
Section Extra.
Import Py LangChain StatCalculator Prompt.
Implicit Types (self : StatCalculator.t) (um br : string) (gs : GameState).
Implicit Types (ctx : option string) (out : list string) (response : message).


(** X2.  Formatting the prompt never fails, and the chat model is handed
    two messages: the fixed system instruction, and the per-call
    instruction in which the month, the stats, the two utterances and
    the context stand as they are.  Braces in the utterances or in the
    context are text, not fields of the template. *)
Theorem prompt_is_delivered_verbatim self um br gs ctx :
  invoke (Pipe prompt (llm self)) (chain_input um br gs ctx)
    = llm self
        [ Message system system_text;
          Message human
            ("[현재 게임 상태]" ++ nl ++
             "- 현재 시점: " ++ pretty (current_month gs) ++ "월" ++ nl ++
             "- 현재 스탯: " ++ Json.dumps (current_stats gs) ++ nl ++
             nl ++
             "[이번 대화]" ++ nl ++
             "코치(사용자): " ++ um ++ nl ++
             "민석(AI): " ++ br ++ nl ++
             nl ++
             context_info ctx ++ nl ++
             nl ++
             "이 대화가 민석의 스탯에 미치는 영향을 분석해주세요.") ].
Proof. rewrite invoke_chain. reflexivity. Qed.

Lemma run_cases self um br gs ctx out :
  (exists delta reason,
      analyze_conversation self um br gs ctx out = (Returned (delta, reason), out) /\
      forall k v, delta !! k = Some v -> ne_zero v = true) \/
  (exists e,
      analyze_conversation self um br gs ctx out
        = (Returned (∅, VStr ANALYSIS_FAILED), (out ++ [warning e])%list)) \/
  (exists e, analyze_conversation self um br gs ctx out = (Raised e, out)).
Proof.
  destruct (llm self (messages um br gs ctx)) as [response|e] eqn:Hllm.
  - destruct (Json.loads (content response)) as [v|e] eqn:Hloads.
    + rewrite (run_decoded _ _ _ _ _ _ _ Hllm _ Hloads).
      destruct (get v "stat_changes" (VDict ∅)) as [sc|e]; [|eauto].
      destruct (get v "reason" (VStr ANALYSIS_COMPLETE)) as [reason|e]; [|eauto].
      destruct sc; cbn [nonzero_items]; eauto.
      left. eexists _, _. split; [reflexivity|].
      intros k w Hk. now apply map_lookup_filter_Some in Hk.
    + rewrite (run_decoder_raises _ _ _ _ _ _ _ Hllm _ Hloads).
      unfold absorbed. destruct (is_decode_or_key_error e); eauto.
  - rewrite (run_oracle_raises _ _ _ _ _ _ _ Hllm).
    unfold absorbed. destruct (is_decode_or_key_error e); eauto.
Qed.

(** X3.  On every path, whatever the oracle does, a delta that
    [analyze_conversation] returns holds no value equal to 0. *)
Theorem returned_delta_is_zero_free self um br gs ctx out delta reason out' :
  analyze_conversation self um br gs ctx out = (Returned (delta, reason), out') ->
  forall k v, delta !! k = Some v -> ne_zero v = true /\ v <> VInt 0.
Proof.
  intros Hrun k v Hk.
  assert (Hnz : ne_zero v = true).
  { destruct (run_cases self um br gs ctx out)
      as [(d & r & H & Hd) | [(e & H) | (e & H)]];
      rewrite H in Hrun; clear H.
    - injection Hrun as <- _ _. eauto.
    - injection Hrun as <- _ _. rewrite lookup_empty in Hk. discriminate Hk.
    - discriminate Hrun. }
  split; [exact Hnz|]. intros ->. discriminate.
Qed.

(** X4.  What was printed before the call is kept, and the call prints
    at most one line: the warning, and only when it returns the
    fallback pair. *)
Theorem output_is_kept_and_grows_by_one_warning self um br gs ctx out result out' :
  analyze_conversation self um br gs ctx out = (result, out') ->
  out' = out \/
  (exists e, out' = (out ++ [warning e])%list /\
             result = Returned (∅, VStr "스탯 분석 실패")).
Proof.
  intros Hrun.
  destruct (run_cases self um br gs ctx out)
    as [(d & r & H & _) | [(e & H) | (e & H)]];
    rewrite H in Hrun; clear H; injection Hrun as <- <-; eauto.
Qed.

(** X5.  The delta is a part of [stat_changes], never larger, and a
    [stat_changes] without a value equal to 0 comes back as it is. *)
Theorem clean_stat_changes_pass_unchanged self um br gs ctx out response obj d :
  llm self (messages um br gs ctx) = Returned response ->
  Json.loads (content response) = Returned (VDict obj) ->
  obj !! "stat_changes" = Some (VDict d) ->
  exists delta reason,
    analyze_conversation self um br gs ctx out = (Returned (delta, reason), out) /\
    delta ⊆ d /\
    size delta <= size d /\
    ((forall k v, d !! k = Some v -> ne_zero v = true) -> delta = d).
Proof.
  intros Hllm Hloads Hsc. eexists _, _. split.
  { apply (run_object _ _ _ _ _ _ _ Hllm obj d Hloads). now rewrite Hsc. }
  split; [apply map_filter_subseteq|].
  split; [apply map_subseteq_size, map_filter_subseteq|].
  intros Hclean. apply map_filter_id. intros k v Hk. cbn. eauto.
Qed.

(** X6.  A delta that [analyze_conversation] has returned, given back
    as the [stat_changes] of another response, is returned again
    unchanged: the filter has nothing left to remove. *)
Theorem delta_fed_back_is_unchanged self1 self2 um1 um2 br1 br2 gs1 gs2 ctx1 ctx2
    out1 out1' out2 delta reason response obj :
  analyze_conversation self1 um1 br1 gs1 ctx1 out1 = (Returned (delta, reason), out1') ->
  llm self2 (messages um2 br2 gs2 ctx2) = Returned response ->
  Json.loads (content response) = Returned (VDict obj) ->
  obj !! "stat_changes" = Some (VDict delta) ->
  exists reason2,
    analyze_conversation self2 um2 br2 gs2 ctx2 out2 = (Returned (delta, reason2), out2).
Proof.
  intros Hrun1 Hllm Hloads Hsc.
  assert (Hclean : forall k v, delta !! k = Some v -> ne_zero v = true).
  { destruct (run_cases self1 um1 br1 gs1 ctx1 out1)
      as [(d & r & H & Hd) | [(e & H) | (e & H)]];
      rewrite H in Hrun1; clear H.
    - injection Hrun1 as <- _ _. exact Hd.
    - injection Hrun1 as <- _ _. intros k v Hk.
      rewrite lookup_empty in Hk. discriminate Hk.
    - discriminate Hrun1. }
  eexists.
  rewrite (run_object _ _ _ _ _ _ _ Hllm obj delta Hloads) by now rewrite Hsc.
  rewrite map_filter_id; [reflexivity|]. intros k v Hk. cbn. eauto.
Qed.

(** X7.  The [reason] of the response is returned as it is, whatever
    JSON value it is: nothing checks that it is a string. *)
Theorem reason_is_passed_through self um br gs ctx out response obj r :
  llm self (messages um br gs ctx) = Returned response ->
  Json.loads (content response) = Returned (VDict obj) ->
  obj !! "reason" = Some r ->
  obj !! "stat_changes" = None \/ (exists d, obj !! "stat_changes" = Some (VDict d)) ->
  exists delta,
    analyze_conversation self um br gs ctx out = (Returned (delta, r), out).
Proof.
  intros Hllm Hloads Hr [Hsc | [d Hsc]]; eexists.
  - rewrite (run_object _ _ _ _ _ _ _ Hllm obj ∅ Hloads) by now rewrite Hsc.
    now rewrite Hr.
  - rewrite (run_object _ _ _ _ _ _ _ Hllm obj d Hloads) by now rewrite Hsc.
    now rewrite Hr.
Qed.

(** X8.  Only [stat_changes] and [reason] are read: two responses that
    decode to objects with the same two fields give the same outcome,
    whatever else the objects hold (the [analysis] field, say) and
    whatever the conversation was. *)
Theorem other_fields_are_ignored self1 self2 um1 um2 br1 br2 gs1 gs2 ctx1 ctx2 out
    response1 response2 obj1 obj2 :
  llm self1 (messages um1 br1 gs1 ctx1) = Returned response1 ->
  llm self2 (messages um2 br2 gs2 ctx2) = Returned response2 ->
  Json.loads (content response1) = Returned (VDict obj1) ->
  Json.loads (content response2) = Returned (VDict obj2) ->
  obj1 !! "stat_changes" = obj2 !! "stat_changes" ->
  obj1 !! "reason" = obj2 !! "reason" ->
  analyze_conversation self1 um1 br1 gs1 ctx1 out
    = analyze_conversation self2 um2 br2 gs2 ctx2 out.
Proof.
  intros Hllm1 Hllm2 Hloads1 Hloads2 Hsc Hr.
  rewrite (run_decoded _ _ _ _ _ _ _ Hllm1 _ Hloads1).
  rewrite (run_decoded _ _ _ _ _ _ _ Hllm2 _ Hloads2).
  cbn [get]. now rewrite Hsc, Hr.
Qed.
End Extra.

Section ExtraTables.
Import StatCalculator.
Implicit Types (self : StatCalculator.t) (gs : GameState).

Lemma training_effects_lookup t :
  training_effects !! t =
    if decide (t = "체력") then Some (<["stamina" := 5%Z]> (<["mental" := 2%Z]> ∅))
    else if decide (t = "근력") then Some (<["power" := 5%Z]> (<["stamina" := (-2)%Z]> ∅))
    else if decide (t = "주루") then Some (<["speed" := 5%Z]> (<["mental" := 3%Z]> ∅))
    else if decide (t = "타격") then Some (<["power" := 3%Z]> (<["mental" := 2%Z]> ∅))
    else if decide (t = "멘탈") then Some (<["mental" := 5%Z]> (<["intimacy" := 2%Z]> ∅))
    else None.
Proof.
  unfold training_effects.
  repeat (rewrite lookup_insert; case_decide; [subst; repeat case_decide; congruence|]).
  rewrite lookup_empty. repeat case_decide; congruence.
Qed.

(** X9.  Every entry of a training bonus is a change to one of the five
    stats, other than 0 and between -2 and 5. *)
Theorem training_bonus_is_a_stat_delta self t gs k v :
  calculate_training_bonus self t gs !! k = Some v ->
  k ∈ (current_stats gs).*1 /\ v <> 0%Z /\ (-2 <= v <= 5)%Z.
Proof.
  unfold calculate_training_bonus. rewrite training_effects_lookup.
  repeat case_decide; cbn [from_option]; unfold id; intros Hk;
    repeat (apply lookup_insert_Some in Hk; destruct Hk as [[<- <-] | [_ Hk]];
            [split; [cbn; set_solver | split; lia] | ]);
    now rewrite lookup_empty in Hk.
Qed.

(** X10.  The training bonus is empty exactly for the types outside the
    table; for each of the five types of the table it has two entries. *)
Theorem training_bonus_empty_iff_unknown self t gs :
  (calculate_training_bonus self t gs = ∅
     <-> t ∉ ["체력"; "근력"; "주루"; "타격"; "멘탈"]) /\
  (t ∈ ["체력"; "근력"; "주루"; "타격"; "멘탈"]
     -> size (calculate_training_bonus self t gs) = 2).
Proof.
  split.
  - unfold calculate_training_bonus. rewrite training_effects_lookup.
    rewrite !not_elem_of_cons.
    repeat case_decide; cbn [from_option]; unfold id.
    1-5: split; [intros Hempty; now apply insert_non_empty in Hempty
                | intros (? & ? & ? & ? & ? & _); congruence].
    split; [intros _; repeat split; auto; apply not_elem_of_nil | reflexivity].
  - rewrite !elem_of_cons.
    unfold calculate_training_bonus. rewrite training_effects_lookup.
    intros [-> | [-> | [-> | [-> | [-> | Hnil]]]]];
      [repeat case_decide; try congruence; reflexivity.. |].
    now apply elem_of_nil in Hnil.
Qed.

(** X11.  Each descriptor is returned on its band and nowhere else. *)
Theorem descriptor_identifies_band self (score : Z) :
  (get_intimacy_level self score = "매우 낮음 - 거의 대화하지 않으려 함"
     <-> (score < 20)%Z) /\
  (get_intimacy_level self score = "낮음 - 방어적이고 거리를 둠"
     <-> (20 <= score < 40)%Z) /\
  (get_intimacy_level self score = "보통 - 조금씩 마음을 열기 시작"
     <-> (40 <= score < 60)%Z) /\
  (get_intimacy_level self score = "높음 - 신뢰하고 협조적"
     <-> (60 <= score < 80)%Z) /\
  (get_intimacy_level self score = "매우 높음 - 진심으로 존경하고 따름"
     <-> (80 <= score)%Z).
Proof.
  unfold get_intimacy_level.
  repeat match goal with
         | |- context [(?a <? ?b)%Z] => destruct (Z.ltb_spec a b)
         end;
  repeat split; intros; try lia; try reflexivity; try discriminate.
Qed.
End ExtraTables.

(** * What the oracle reads, and what a reply can be *)
Section Snapshot.
Import Py LangChain StatCalculator Prompt.
Implicit Types (self : StatCalculator.t) (um br : string) (gs : GameState).
Implicit Types (ctx : option string) (out : list string) (response : message).

(** X12.  The stats that the prompt shows, [json.dumps(current_stats)],
    are a JSON object that [json.loads] reads back as the five stats of
    the game state, negative ones too, as long as none of them has
    more digits than [int(text)] takes. *)
Theorem stats_snapshot_decodes gs :
  Forall (fun kv : string * Z =>
            (Json.decimal_digits kv.2 <= Json.int_max_str_digits)%Z)
         (current_stats gs) ->
  Json.loads (Json.dumps (current_stats gs))
    = Returned (VDict (<["speed" := VInt (speed (stats gs))]>
                      (<["power" := VInt (power (stats gs))]>
                      (<["stamina" := VInt (stamina (stats gs))]>
                      (<["mental" := VInt (mental (stats gs))]>
                      (<["intimacy" := VInt (intimacy (stats gs))]> ∅)))))).
Proof. apply (loads_dumps (current_stats gs)). Qed.

Lemma match_number_scalar s idx v rest j :
  Json.match_number s idx = Json.Scanned v rest j ->
  (exists z, v = VInt z) \/ (exists f, v = VFloat f).
Proof.
  unfold Json.match_number.
  destruct (Json.expect "-" s);
    (destruct (Json.integer_part _) as [[ip s2]|]; [|discriminate]);
    destruct (Json.fraction_part s2) as [fp s3];
    destruct (Json.exponent_part s3) as [ep s4];
    destruct fp, ep;
    try (destruct (Json.int_max_str_digits <? Json.len ip)%Z; [discriminate|]);
    intros [= <- _ _]; eauto.
Qed.

Lemma constant_or_number_scalar s idx v rest j :
  Json.constant_or_number Json.constants s idx = Json.Scanned v rest j ->
  forall d, v <> VDict d.
Proof.
  unfold Json.constants. cbn [Json.constant_or_number].
  repeat (destruct (Json.strip_prefix _ s); [intros [= <- _ _]; discriminate|]).
  intros H d ->. apply match_number_scalar in H as [[z [=]] | [f [=]]].
Qed.

Lemma scan_items_list fuel depth : forall s idx acc v rest j,
  Json.scan_items fuel depth s idx acc = Json.Scanned v rest j -> exists l, v = VList l.
Proof.
  induction fuel as [|fuel IH]; intros s idx acc v rest j; [discriminate|].
  cbn [Json.scan_items].
  destruct (Json.scan_once fuel depth s idx) as [w s1 i1| | |]; try discriminate.
  destruct (Json.skip_whitespace s1 i1) as [s2 i2].
  destruct (Json.expect "]" s2); [intros [= <- _ _]; eauto|].
  destruct (Json.expect "," s2) as [s3|]; [|discriminate].
  destruct (Json.skip_whitespace s3 (i2 + 1)) as [s4 i4]. apply IH.
Qed.

(** Only a text that starts with an opening brace scans to a
    dictionary. *)
Lemma scan_once_dict fuel depth s idx d rest j :
  Json.scan_once fuel depth s idx = Json.Scanned (VDict d) rest j ->
  Json.expect "{" s <> None.
Proof.
  destruct fuel as [|fuel]; [discriminate|]. cbn [Json.scan_once].
  destruct (Json.expect dq_char s) as [s'|].
  { destruct (Json.scanstring s' (idx + 1) idx); discriminate. }
  destruct (Json.expect "{" s); [discriminate|].
  destruct (Json.expect "[" s) as [s'|].
  - destruct depth as [|depth]; [discriminate|].
    destruct (Json.skip_whitespace s' (idx + 1)) as [s1 i1].
    destruct (Json.expect "]" s1); [discriminate|].
    intros H. apply scan_items_list in H as [l [=]].
  - intros H. now apply constant_or_number_scalar with (d := d) in H.
Qed.

Lemma loads_dict s d :
  Json.loads s = Returned (VDict d) ->
  Json.expect "{" (Json.skip_whitespace s 0).1 <> None.
Proof.
  unfold Json.loads, Json.loads_within, Json.decode_error.
  destruct (Json.strip_prefix Json.bom s).
  { destruct (Json.line_col s 0 0 1 None); discriminate. }
  destruct (Json.skip_whitespace s 0) as [s1 i1]. cbn [fst].
  destruct (Json.scan_once _ _ s1 i1) as [v rest i|msg i|e|] eqn:Hscan.
  - destruct (Json.skip_whitespace rest i) as [[|c r] i'].
    + intros [= ->]. now apply scan_once_dict in Hscan.
    + destruct (Json.line_col s 0 i' 1 None); discriminate.
  - destruct (Json.line_col s 0 i 1 None); discriminate.
  - discriminate.
  - discriminate.
Qed.

(** X14.  An exception of [json.loads] on the reply is absorbed when it
    is a [JSONDecodeError]: one warning line with the class and the
    message of the exception is printed and the fallback pair is
    returned.  Any other is the [RecursionError] or the [ValueError]
    of a limit of the interpreter, and leaves the call as it is,
    nothing being printed. *)
Theorem decoder_exception_absorbed_or_propagated self um br gs ctx out response e :
  llm self (messages um br gs ctx) = Returned response ->
  Json.loads (content response) = Raised e ->
  (exn_class e = JSONDecodeError ->
     analyze_conversation self um br gs ctx out =
       (Returned (∅, VStr "스탯 분석 실패"),
        (out ++ [("[WARNING] 스탯 분석 실패 (JSONDecodeError): " ++ exn_str e)%string])%list)) /\
  (exn_class e <> JSONDecodeError ->
     (exn_class e = RecursionError \/ exn_class e = ValueError) /\
     analyze_conversation self um br gs ctx out = (Raised e, out)).
Proof.
  intros Hllm Hloads.
  rewrite (run_decoder_raises _ _ _ _ _ _ _ Hllm e Hloads).
  destruct (loads_outcomes (content response))
    as [[v Hv] | [[msg Hmsg] | [[msg Hmsg] | [msg Hmsg]]]];
    rewrite Hloads in *; [discriminate Hv | ..]; injection Hmsg as ->.
  - split; [reflexivity | intros Hc; now destruct Hc].
  - split; [intros Hc; discriminate Hc | intros _; split; [now left | reflexivity]].
  - split; [intros Hc; discriminate Hc | intros _; split; [now right | reflexivity]].
Qed.

(** X13.  A reply whose first character after the white space is not an
    opening brace (a reply inside a Markdown fence, a bare list or
    number) never yields a stat change.  The call returns the fallback
    pair with a warning, the text being no JSON; or it raises: an
    [AttributeError], the decoded value being no object, or the
    [RecursionError] or the [ValueError] by which a limit of the
    interpreter has ended the decoding.  Nothing is printed then. *)
Theorem reply_without_leading_brace_changes_nothing self um br gs ctx out response :
  llm self (messages um br gs ctx) = Returned response ->
  Json.expect "{" (Json.skip_whitespace (content response) 0).1 = None ->
  (exists e, exn_class e = JSONDecodeError /\
     analyze_conversation self um br gs ctx out
       = (Returned (∅, VStr "스탯 분석 실패"), (out ++ [warning e])%list)) \/
  (exists e,
     (exn_class e = AttributeError \/ exn_class e = RecursionError \/
      exn_class e = ValueError) /\
     analyze_conversation self um br gs ctx out = (Raised e, out)).
Proof.
  intros Hllm Hbrace.
  destruct (loads_outcomes (content response))
    as [[v Hv] | [[msg Hmsg] | [[msg Hmsg] | [msg Hmsg]]]].
  - right. eexists. split; [|apply (run_not_object _ _ _ _ _ _ _ Hllm _ Hv)].
    + left. reflexivity.
    + intros obj ->. now apply loads_dict in Hv.
  - left. eexists. split; [|apply (run_decoder_raises _ _ _ _ _ _ _ Hllm _ Hmsg)].
    reflexivity.
  - right. eexists. split; [|apply (run_decoder_raises _ _ _ _ _ _ _ Hllm _ Hmsg)].
    right; left. reflexivity.
  - right. eexists. split; [|apply (run_decoder_raises _ _ _ _ _ _ _ Hllm _ Hmsg)].
    right; right. reflexivity.
Qed.
End Snapshot.

(** * The further properties, at work *)
Section ExtraRuns.
Import Py LangChain StatCalculator Prompt Scenario.


Lemma encouraged_run :
  analyze_conversation (replying encouraged) praise thanks month3 None []
    = (Returned (<["intimacy" := VInt 5]> (<["mental" := VInt 3]> ∅),
                 VStr "Positive encouragement"), []).
Proof. vm_compute. reflexivity. Qed.

Lemma returned_delta_is_zero_free_witness :
  analyze_conversation (replying encouraged) praise thanks month3 None []
    = (Returned (<["intimacy" := VInt 5]> (<["mental" := VInt 3]> ∅),
                 VStr "Positive encouragement"), []) /\
  (ne_zero (VInt 5) = true /\ VInt 5 <> VInt 0).
Proof.
  split; [exact encouraged_run|].
  apply (returned_delta_is_zero_free
           (replying encouraged) praise thanks month3 None [] _ _ _
           encouraged_run "intimacy" (VInt 5)).
  vm_compute. reflexivity.
Defined.

Lemma not_json_run :
  analyze_conversation (replying "not json") praise thanks month3 None []
    = (Returned (∅, VStr "스탯 분석 실패"),
       [warning (Exn JSONDecodeError "Expecting value: line 1 column 1 (char 0)")]).
Proof. vm_compute. reflexivity. Qed.

Lemma output_is_kept_and_grows_by_one_warning_witness :
  analyze_conversation (replying "not json") praise thanks month3 None []
    = (Returned (∅, VStr "스탯 분석 실패"),
       [warning (Exn JSONDecodeError "Expecting value: line 1 column 1 (char 0)")]) /\
  ([warning (Exn JSONDecodeError "Expecting value: line 1 column 1 (char 0)")] = [] \/
   exists e,
     [warning (Exn JSONDecodeError "Expecting value: line 1 column 1 (char 0)")]
       = ([] ++ [warning e])%list /\
     Returned (∅ : gmap string value, VStr "스탯 분석 실패")
       = Returned (∅, VStr "스탯 분석 실패")).
Proof.
  split; [exact not_json_run|].
  exact (output_is_kept_and_grows_by_one_warning
           (replying "not json") praise thanks month3 None [] _ _ not_json_run).
Defined.

Lemma clean_stat_changes_pass_unchanged_witness :
  Json.loads clean
    = Returned (VDict (<["stat_changes" :=
                          VDict (<["intimacy" := VInt 5]> (<["mental" := VInt 3]> ∅))]> ∅)) /\
  exists reason,
    analyze_conversation (replying clean) praise thanks month3 None []
      = (Returned (<["intimacy" := VInt 5]> (<["mental" := VInt 3]> ∅), reason), []).
Proof.
  split; [vm_compute; reflexivity|].
  pose (d := (<["intimacy" := VInt 5]> (<["mental" := VInt 3]> ∅) : gmap string value)).
  destruct (clean_stat_changes_pass_unchanged
              (replying clean) praise thanks month3 None []
              (Message ai clean) (<["stat_changes" := VDict d]> ∅) d)
    as (delta & reason & Hrun & _ & _ & Hclean).
  - reflexivity.
  - vm_compute; reflexivity.
  - vm_compute; reflexivity.
  - exists reason. rewrite Hrun. rewrite Hclean; [reflexivity|].
    intros k v. unfold d. rewrite !lookup_insert_Some, lookup_empty.
    intros [[_ <-] | [_ [[_ <-] | [_ [=]]]]]; reflexivity.
Defined.

Lemma delta_fed_back_is_unchanged_witness :
  exists reason2,
    analyze_conversation (replying clean) thanks praise month3 (Some "later") []
      = (Returned (<["intimacy" := VInt 5]> (<["mental" := VInt 3]> ∅), reason2), []).
Proof.
  apply (delta_fed_back_is_unchanged
           (replying encouraged) (replying clean) praise thanks thanks praise
           month3 month3 None (Some "later") [] [] []
           (<["intimacy" := VInt 5]> (<["mental" := VInt 3]> ∅))
           (VStr "Positive encouragement") (Message ai clean)
           (<["stat_changes" :=
                VDict (<["intimacy" := VInt 5]> (<["mental" := VInt 3]> ∅))]> ∅)).
  - exact encouraged_run.
  - reflexivity.
  - vm_compute; reflexivity.
  - vm_compute; reflexivity.
Defined.

Lemma reason_is_passed_through_witness :
  Json.loads reason_is_null = Returned (VDict (<["reason" := VNone]> ∅)) /\
  exists delta,
    analyze_conversation (replying reason_is_null) praise thanks month3 None []
      = (Returned (delta, VNone), []).
Proof.
  split; [vm_compute; reflexivity|].
  apply (reason_is_passed_through
           (replying reason_is_null) praise thanks month3 None []
           (Message ai reason_is_null) (<["reason" := VNone]> ∅) VNone).
  - reflexivity.
  - vm_compute; reflexivity.
  - vm_compute; reflexivity.
  - left. vm_compute; reflexivity.
Defined.

Lemma other_fields_are_ignored_witness :
  analyze_conversation (replying encouraged) praise thanks month3 None []
    = analyze_conversation (replying encouraged_with_analysis) thanks praise month3
        (Some "later") [].
Proof.
  pose (d := (<["intimacy" := VInt 5]> (<["mental" := VInt 3]>
               (<["stamina" := VInt 0]> ∅)) : gmap string value)).
  apply (other_fields_are_ignored
           (replying encouraged) (replying encouraged_with_analysis)
           praise thanks thanks praise month3 month3 None (Some "later") []
           (Message ai encouraged) (Message ai encouraged_with_analysis)
           (<["stat_changes" := VDict d]>
              (<["reason" := VStr "Positive encouragement"]> ∅))
           (<["analysis" := VStr "Warm tone"]>
              (<["stat_changes" := VDict d]>
                 (<["reason" := VStr "Positive encouragement"]> ∅)))).
  all: vm_compute; reflexivity.
Defined.

Lemma training_bonus_is_a_stat_delta_witness :
  calculate_training_bonus (replying EmptyString) "주루" month3 !! "speed" = Some 5%Z /\
  ("speed" ∈ (current_stats month3).*1 /\ 5%Z <> 0%Z /\ (-2 <= 5 <= 5)%Z).
Proof.
  assert (H : calculate_training_bonus (replying EmptyString) "주루" month3 !! "speed"
              = Some 5%Z) by (vm_compute; reflexivity).
  split; [exact H|].
  exact (training_bonus_is_a_stat_delta (replying EmptyString) "주루" month3 "speed" 5 H).
Defined.

Lemma decoder_exception_absorbed_or_propagated_witness :
  Json.loads "not json"
    = Raised (Exn JSONDecodeError "Expecting value: line 1 column 1 (char 0)") /\
  analyze_conversation (replying "not json") praise thanks month3 None []
    = (Returned (∅, VStr "스탯 분석 실패"),
       ["[WARNING] 스탯 분석 실패 (JSONDecodeError): Expecting value: line 1 column 1 (char 0)"]).
Proof.
  assert (H : Json.loads "not json"
              = Raised (Exn JSONDecodeError "Expecting value: line 1 column 1 (char 0)"))
    by (vm_compute; reflexivity).
  split; [exact H|].
  apply (proj1 (decoder_exception_absorbed_or_propagated
                  (replying "not json") praise thanks month3 None []
                  (Message ai "not json") _ eq_refl H)).
  reflexivity.
Defined.

Lemma stats_snapshot_decodes_witness :
  Json.loads (Json.dumps (current_stats month3))
    = Returned (VDict (<["speed" := VInt 45]> (<["power" := VInt 40]>
                      (<["stamina" := VInt 60]> (<["mental" := VInt 50]>
                      (<["intimacy" := VInt 30]> ∅)))))).
Proof.
  apply (stats_snapshot_decodes month3).
  repeat constructor; vm_compute; discriminate.
Defined.

Lemma reply_without_leading_brace_changes_nothing_witness :
  Json.expect "{" (Json.skip_whitespace fenced 0).1 = None /\
  ((exists e, exn_class e = JSONDecodeError /\
      analyze_conversation (replying fenced) praise thanks month3 None []
        = (Returned (∅, VStr "스탯 분석 실패"), ([] ++ [warning e])%list)) \/
   (exists e,
      (exn_class e = AttributeError \/ exn_class e = RecursionError \/
       exn_class e = ValueError) /\
      analyze_conversation (replying fenced) praise thanks month3 None []
        = (Raised e, []))).
Proof.
  assert (H : Json.expect "{" (Json.skip_whitespace fenced 0).1 = None)
    by (vm_compute; reflexivity).
  split; [exact H|].
  exact (reply_without_leading_brace_changes_nothing
           (replying fenced) praise thanks month3 None [] (Message ai fenced)
           eq_refl H).
Defined.

(** The two limits, reached: lists nested deeper than the recursion
    limit, and an integer of more digits than [int(text)] takes.  The
    exception is none that the [except] clause names. *)
Lemma deeply_nested_reply_raises :
  analyze_conversation (replying deeply_nested) praise thanks month3 None []
    = (Raised (Json.recursion_error "array"), []).
Proof. vm_compute. reflexivity. Qed.

Lemma long_integer_reply_raises :
  analyze_conversation (replying long_integer) praise thanks month3 None []
    = (Raised (Json.digit_limit_error 4301), []).
Proof. vm_compute. reflexivity. Qed.
End ExtraRuns.
